(** * The conditions evaluator: a shallow embedding and its properties

    The embedded code is the evaluator of the [conditions] package
    ([Evaluate], [evaluateSubtree], [applyOperator], the [apply*] operators
    and the [get*] accessors).  Go's dynamic values, the package-level
    [falseExpr] object, the wall clock read by [BEFORE] and run-time panics
    are made explicit:

    - a value of type [interface{}] is a [GoValue];
    - a [float64] is a primitive binary64 [float];
    - a function that may panic, read the clock or touch [falseExpr] is a
      computation in the monad [M];
    - Go's [(value, error)] results are pairs whose second component is an
      [option error] ([None] is the nil error). *)

From Stdlib Require Import ZArith String Ascii List Bool Lia.
From Stdlib Require Import PrimFloat SpecFloat FloatOps FloatAxioms.
Import ListNotations.

Local Open Scope string_scope.

(** ** Host language: integers, floats, time *)

Definition minInt64 : Z := (- 2 ^ 63)%Z.
Definition maxInt64 : Z := (2 ^ 63 - 1)%Z.

(** Arithmetic on [int64] wraps around. *)
Definition wrap64 (z : Z) : Z := ((z + 2 ^ 63) mod 2 ^ 64 - 2 ^ 63)%Z.

(** [float64(n)] for an integer [n]: the nearest binary64, ties to even. *)
Definition float64_of_int (n : Z) : float :=
  SF2Prim (binary_normalize prec emax n 0 false).

(** [int64(x)] for a [float64] [x], as in the conversion [time.Duration(days)]:
    the fraction is discarded (truncation towards zero).  When the truncated
    value does not fit, or [x] is a NaN or an infinity, Go leaves the result to
    the implementation; amd64 yields the smallest [int64]. *)
Definition float64_to_int64 (x : float) : Z :=
  match Prim2SF x with
  | S754_zero _ => 0%Z
  | S754_finite s m e =>
      let z := cond_Zopp s (Z.shiftl (Zpos m) e) in
      if ((minInt64 <=? z) && (z <=? maxInt64))%Z then z else minInt64
  | S754_infinity _ | S754_nan => minInt64
  end.

(** [time.Time]: an instant, in nanoseconds since the epoch of the clock. *)
Definition Time := Z.
(** [time.Duration]: an [int64] count of nanoseconds. *)
Definition Duration := Z.

(** [time.Second]. *)
Definition Second : Duration := 1000000000%Z.

(** [t.Sub(u)]: the difference, saturated to the range of [Duration]. *)
Definition time_Sub (t u : Time) : Duration :=
  let d := (t - u)%Z in
  if (d >? maxInt64)%Z then maxInt64
  else if (d <? minInt64)%Z then minInt64
  else d.

(** [strings.Contains(s, substr)]. *)
Fixpoint strings_Contains (s substr : string) : bool :=
  String.prefix substr s ||
  match s with
  | EmptyString => false
  | String _ s' => strings_Contains s' substr
  end.

(** ** Run-time types and dynamic values *)

Module reflect.
(** [reflect.Kind]. *)
Inductive Kind :=
| Invalid | Bool | Int | Int8 | Int16 | Int32 | Int64
| Uint | Uint8 | Uint16 | Uint32 | Uint64 | Uintptr
| Float32 | Float64 | Complex64 | Complex128
| Array | Chan | Func | Interface | Map | Pointer | Slice | String | Struct
| UnsafePointer.
End reflect.

(** A value held in an [interface{}]: the record handed to [Evaluate], and
    the values stored in it.  The first constructors are the dynamic types
    the evaluator asserts by name; [GoStruct] is a struct of any type other
    than [time.Time], with its fields in declaration order; a [GoMap] is a
    [map[string]interface{}], listed as its bindings; [GoOther k] is a
    value of any remaining type, of which only the kind [k] is observed (a
    defined type such as [type Age int], a slice other than [[]string], a map
    other than [map[string]interface{}], a pointer, ...).  A [float32] is
    given by its value, which the conversion to [float64] keeps. *)
Inductive GoValue :=
| GoNil
| GoTime (t : Time)
| GoInt (n : Z)
| GoInt32 (n : Z)
| GoInt64 (n : Z)
| GoFloat32 (x : float)
| GoFloat64 (x : float)
| GoString (s : string)
| GoBool (b : bool)
| GoStrings (l : list string)
| GoMap (m : list Binding)
| GoStruct (fields : list Binding)
| GoOther (k : reflect.Kind)
with Binding :=
| binding (name : string) (value : GoValue).

(** [reflect.TypeOf(v)] is nil for the nil interface, and calling [Kind] on
    it panics: [None] stands for that case. *)
Definition KindOf (v : GoValue) : option reflect.Kind :=
  match v with
  | GoNil => None
  | GoTime _ => Some reflect.Struct
  | GoInt _ => Some reflect.Int
  | GoInt32 _ => Some reflect.Int32
  | GoInt64 _ => Some reflect.Int64
  | GoFloat32 _ => Some reflect.Float32
  | GoFloat64 _ => Some reflect.Float64
  | GoString _ => Some reflect.String
  | GoBool _ => Some reflect.Bool
  | GoStrings _ => Some reflect.Slice
  | GoMap _ => Some reflect.Map
  | GoStruct _ => Some reflect.Struct
  | GoOther k => Some k
  end.

(** [argsMap[index]] with the comma-ok form. *)
Fixpoint map_lookup (index : string) (m : list Binding) : option GoValue :=
  match m with
  | [] => None
  | binding k v :: m' => if String.eqb k index then Some v else map_lookup index m'
  end.

(** A field is exported when its name starts with an upper-case letter.
    Names are taken to be ASCII: a field whose first letter is an upper-case
    letter outside ASCII, which Go exports, is not told from an unexported
    one. *)
Definition exported (name : string) : bool :=
  match name with
  | EmptyString => false
  | String c _ => let n := nat_of_ascii c in (65 <=? n)%nat && (n <=? 90)%nat
  end.

(** The fields [reflect.Value.FieldByName] can find in a value of kind
    struct.  [time.Time] has the unexported fields [wall], [ext] and [loc]. *)
Definition struct_fields (v : GoValue) : list Binding :=
  match v with
  | GoStruct fields => fields
  | GoTime _ =>
      [binding "wall" (GoOther reflect.Uint64); binding "ext" (GoInt64 0);
       binding "loc" (GoOther reflect.Pointer)]
  | _ => []
  end.

(** ** Tokens and expressions *)

(** Modelled from the spec: the declaration of [Token] is not among the
    sources.  The sixteen operators are the constants [applyOperator]
    dispatches on; the other token kinds are those section 3 of the
    specification lists. *)
Inductive Token :=
| ILLEGAL | EOF | IDENT | VARIABLE | STRING | NUMBER | BOOLEAN | LPAREN | RPAREN
| AND | OR | EQ | NEQ | GT | GTE | LT | LTE | XOR | NAND
| IN | CONTAINS | BEFORE | NOTIN | EREG | NEREG.

(** Modelled from the spec: the declarations of the expression nodes are not
    among the sources.  The variants are those of section 3, with the field
    names the evaluator reads ([Op], [LHS], [RHS], [Expr], [Val]); [NilExpr]
    is the nil interface, which [Evaluate] and [evaluateSubtree] test for.
    Every other value is a tree of nodes that exist, as a parser builds them:
    a nil pointer of a node type stored in the interface, which is not the
    nil interface and which the evaluator would dereference, is not a value
    of this type. *)
Inductive Expr :=
| NilExpr
| BinaryExpr (Op : Token) (LHS RHS : Expr)
| ParenExpr (inner : Expr)
| VarRef (Val : string)
| BooleanLiteral (Val : bool)
| NumberLiteral (Val : float)
| StringLiteral (Val : string)
| TimeLiteral (Val : Time)
| DurationLiteral (Val : Duration)
| SliceStringLiteral (Val : list string)
| SliceNumberLiteral (Val : list float).

(** A [*BooleanLiteral] returned by an operator: nil, the package-level
    [falseExpr], or a literal the operator has just allocated
    ([&BooleanLiteral{Val: v}]), which nothing else refers to. *)
Inductive BooleanLiteralPtr :=
| PNil
| PFalseExpr
| PNew (Val : bool).

(** An [Expr] interface value during evaluation: a node (of the tree, or
    freshly allocated), a nil [*BooleanLiteral] wrapped in the interface, or
    the pointer [falseExpr]. *)
Inductive ExprRef :=
| Node (n : Expr)
| NilBoolean
| FalseExprRef.

(** The implicit conversion of a [*BooleanLiteral] to the interface [Expr]. *)
Definition toExpr (p : BooleanLiteralPtr) : ExprRef :=
  match p with
  | PNil => NilBoolean
  | PFalseExpr => FalseExprRef
  | PNew v => Node (BooleanLiteral v)
  end.

(** ** Errors *)

Inductive fmt_arg :=
| AString (s : string)
| AKind (k : reflect.Kind)
| AToken (t : Token)
| AExpr (e : ExprRef)
| AGo (v : GoValue).

(** An [error]: the result of [fmt.Errorf(format, args...)], or the error of
    the regular-expression compiler. *)
Inductive error :=
| Errorf (format : string) (args : list fmt_arg)
| SyntaxError (msg : string).

(** [err != nil]. *)
Definition isErr (err : option error) : bool :=
  match err with
  | Some _ => true
  | None => false
  end.

(** ** Computations *)

(** What evaluation can read or write besides its arguments: the field [Val]
    of the object [falseExpr] points to, and the number of times the clock
    has been read. *)
Record State := mkState { falseExpr_Val : bool; clock_reads : nat }.

(** The state a program starts in: [falseExpr = &BooleanLiteral{Val: false}]. *)
Definition init : State := mkState false 0.

Inductive Panic :=
| NilDereference
| TypeAssertion
| UnexportedField.

Inductive Outcome (A : Type) :=
| Returns (a : A) (s : State)
| Panics (p : Panic).
Arguments Returns {A} a s.
Arguments Panics {A} p.

Definition M (A : Type) : Type := State -> Outcome A.

Definition ret {A} (a : A) : M A := fun s => Returns a s.

Definition bind {A B} (c : M A) (k : A -> M B) : M B :=
  fun s =>
    match c s with
    | Returns a s' => k a s'
    | Panics p => Panics p
    end.

Definition panic {A} (p : Panic) : M A := fun _ => Panics p.

Notation "x <- c ;; k" := (bind c (fun x => k))
  (at level 61, c at next level, right associativity).
Notation "' pat <- c ;; k" := (bind c (fun x => match x with pat => k end))
  (at level 61, pat pattern, c at next level, right associativity).

(** [p.Val], read. *)
Definition load_Val (p : BooleanLiteralPtr) : M bool :=
  fun s =>
    match p with
    | PNil => Panics NilDereference
    | PFalseExpr => Returns (falseExpr_Val s) s
    | PNew v => Returns v s
    end.

(** [p.Val = !p.Val]; the pointer is returned with the object updated. *)
Definition negate_Val (p : BooleanLiteralPtr) : M BooleanLiteralPtr :=
  fun s =>
    match p with
    | PNil => Panics NilDereference
    | PFalseExpr =>
        Returns PFalseExpr (mkState (negb (falseExpr_Val s)) (clock_reads s))
    | PNew v => Returns (PNew (negb v)) s
    end.

(** What the result of one evaluation is, the state left aside. *)
Inductive Result (A : Type) :=
| Value (a : A)
| Crash (p : Panic).
Arguments Value {A} a.
Arguments Crash {A} p.

Definition result_of {A} (o : Outcome A) : Result A :=
  match o with
  | Returns a _ => Value a
  | Panics p => Crash p
  end.

(** ** Accessors *)

(** getBoolean performs type assertion and returns boolean value or error *)
Definition getBoolean (e : ExprRef) : M (bool * option error) :=
  match e with
  | Node (BooleanLiteral v) => ret (v, None)
  | NilBoolean => v <- load_Val PNil ;; ret (v, None)
  | FalseExprRef => v <- load_Val PFalseExpr ;; ret (v, None)
  | _ => ret (false, Some (Errorf "Literal is not a boolean: %v" [AExpr e]))
  end.

Definition getTime (e : ExprRef) : Time * option error :=
  match e with
  | Node (TimeLiteral v) => (v, None)
  | _ => (0%Z, Some (Errorf "Literal is not a time: %v" [AExpr e]))
  end.

Definition getTimeDuration (e : ExprRef) : Duration * option error :=
  match e with
  | Node (DurationLiteral v) => (v, None)
  | _ => ((Second * 0)%Z, Some (Errorf "Literal is not a time: %v" [AExpr e]))
  end.

Definition getString (e : ExprRef) : string * option error :=
  match e with
  | Node (StringLiteral v) => (v, None)
  | _ => ("", Some (Errorf "Literal is not a string: %v" [AExpr e]))
  end.

Definition getSliceNumber (e : ExprRef) : list float * option error :=
  match e with
  | Node (SliceNumberLiteral v) => (v, None)
  | _ => ([], Some (Errorf "Literal is not a slice of float64: %v" [AExpr e]))
  end.

Definition getSliceString (e : ExprRef) : list string * option error :=
  match e with
  | Node (SliceStringLiteral v) => (v, None)
  | _ => ([], Some (Errorf "Literal is not a slice of string: %v" [AExpr e]))
  end.

Definition getNumber (e : ExprRef) : float * option error :=
  match e with
  | Node (NumberLiteral v) => (v, None)
  | _ => (0%float, Some (Errorf "Literal is not a number: %v" [AExpr e]))
  end.

(** ** Variable resolution: the [*VarRef] case of [evaluateSubtree] *)

(** The switch on [reflect.TypeOf(args).Kind()]: the value bound to [index]
    in the record, or the error the switch returns. *)
Definition lookupArg (index : string) (args : GoValue) : M (GoValue + error) :=
  match KindOf args with
  | None => panic NilDereference
  | Some reflect.Map =>
      match args with
      | GoMap argsMap =>
          match map_lookup index argsMap with
          | None => ret (inr (Errorf "Argument: `%v` not found" [AString index]))
          | Some val => ret (inl val)
          end
      | _ => ret (inr (Errorf "Args: `%v` convert to map not ok" [AGo args]))
      end
  | Some reflect.Struct =>
      match map_lookup index (struct_fields args) with
      | None =>
          ret (inr (Errorf "Argument: `%v` not found in args `%v`"
                      [AString index; AGo args]))
      | Some fval =>
          if exported index then ret (inl fval) else panic UnexportedField
      end
  | Some _ => ret (inr (Errorf "Args: `%v` is not map or struct" [AGo args]))
  end.

(** The literal a resolved value becomes: the assertion to [time.Time], then
    the switch on [reflect.TypeOf(val).Kind()] with its unchecked type
    assertions. *)
Definition literalOf (name : string) (val : GoValue) : M (ExprRef * option error) :=
  match val with
  | GoTime t => ret (Node (TimeLiteral t), None)
  | _ =>
      match KindOf val with
      | None => panic NilDereference
      | Some kind =>
          match kind, val with
          | reflect.Int, GoInt n => ret (Node (NumberLiteral (float64_of_int n)), None)
          | reflect.Int, _ => panic TypeAssertion
          | reflect.Int32, GoInt32 n => ret (Node (NumberLiteral (float64_of_int n)), None)
          | reflect.Int32, _ => panic TypeAssertion
          | reflect.Int64, GoInt64 n => ret (Node (NumberLiteral (float64_of_int n)), None)
          | reflect.Int64, _ => panic TypeAssertion
          | reflect.Float32, GoFloat32 x => ret (Node (NumberLiteral x), None)
          | reflect.Float32, _ => panic TypeAssertion
          | reflect.Float64, GoFloat64 x => ret (Node (NumberLiteral x), None)
          | reflect.Float64, _ => panic TypeAssertion
          | reflect.String, GoString s => ret (Node (StringLiteral s), None)
          | reflect.String, _ => panic TypeAssertion
          | reflect.Bool, GoBool b => ret (Node (BooleanLiteral b), None)
          | reflect.Bool, _ => panic TypeAssertion
          | reflect.Slice, GoStrings l => ret (Node (SliceStringLiteral l), None)
          | reflect.Slice, _ => panic TypeAssertion
          | _, _ =>
              ret (FalseExprRef,
                   Some (Errorf "Unsupported argument %s type: %s"
                           [AString name; AKind kind]))
          end
      end
  end.

(** ** Operators that need neither the clock nor regular expressions *)

(** The loop [for _, e := range b { if a == e { found = true } }]. *)
Definition scan {A} (eqb : A -> A -> bool) (a : A) (b : list A) : bool :=
  fold_left (fun found e => if eqb a e then true else found) b false.

(** applyContains applies CONTAINS to l/r operations *)
Definition applyContains (l r : ExprRef) : M (BooleanLiteralPtr * option error) :=
  match r with
  | Node (StringLiteral _) =>
      let '(a, err) := getString r in
      if isErr err then ret (PNil, err) else
      let ltIsString := match l with Node (StringLiteral _) => true | _ => false end in
      if ltIsString then
        let '(bb, err) := getString l in
        if isErr err then ret (PNil, err) else
        ret (PNew (strings_Contains bb a), None)
      else
      let '(b, err) := getSliceString l in
      if isErr err then ret (PNil, err) else
      ret (PNew (scan String.eqb a b), None)
  | Node (NumberLiteral _) =>
      let '(a, err) := getNumber r in
      if isErr err then ret (PNil, err) else
      let '(b, err) := getSliceNumber l in
      if isErr err then ret (PNil, err) else
      ret (PNew (scan PrimFloat.eqb a b), None)
  | _ =>
      ret (PNil, Some (Errorf "Can not evaluate Literal of unknow type %s %T"
                         [AExpr r; AExpr r]))
  end.

(** applyIN applies IN operation to l/r operands *)
Definition applyIN (l r : ExprRef) : M (BooleanLiteralPtr * option error) :=
  match l with
  | Node (StringLiteral _) =>
      let '(a, err) := getString l in
      if isErr err then ret (PNil, err) else
      let '(b, err) := getSliceString r in
      if isErr err then ret (PNil, err) else
      ret (PNew (scan String.eqb a b), None)
  | Node (NumberLiteral _) =>
      let '(a, err) := getNumber l in
      if isErr err then ret (PNil, err) else
      let '(b, err) := getSliceNumber r in
      if isErr err then ret (PNil, err) else
      ret (PNew (scan PrimFloat.eqb a b), None)
  | _ =>
      ret (PNil, Some (Errorf "Can not evaluate Literal of unknow type %s %T"
                         [AExpr l; AExpr l]))
  end.

(** applyNOTIN applies NOT IN operation to l/r operands *)
Definition applyNOTIN (l r : ExprRef) : M (BooleanLiteralPtr * option error) :=
  '(result, err) <- applyIN l r ;;
  result <- negate_Val result ;;
  ret (result, err).

(** applyXOR applies || operation to l/r operands *)
Definition applyXOR (l r : ExprRef) : M (BooleanLiteralPtr * option error) :=
  '(a, err) <- getBoolean l ;;
  if isErr err then ret (PNil, err) else
  '(b, err) <- getBoolean r ;;
  if isErr err then ret (PNil, err) else
  ret (PNew (negb (Bool.eqb a b)), None).

(** applyNAND applies NAND operation to l/r operands *)
Definition applyNAND (l r : ExprRef) : M (BooleanLiteralPtr * option error) :=
  '(a, err) <- getBoolean l ;;
  if isErr err then ret (PNil, err) else
  '(b, err) <- getBoolean r ;;
  if isErr err then ret (PNil, err) else
  ret (PNew (negb (a && b)), None).

(** applyAND applies && operation to l/r operands *)
Definition applyAND (l r : ExprRef) : M (BooleanLiteralPtr * option error) :=
  '(a, err) <- getBoolean l ;;
  if isErr err then ret (PNil, err) else
  '(b, err) <- getBoolean r ;;
  if isErr err then ret (PNil, err) else
  ret (PNew (a && b), None).

(** applyOR applies || operation to l/r operands *)
Definition applyOR (l r : ExprRef) : M (BooleanLiteralPtr * option error) :=
  '(a, err) <- getBoolean l ;;
  if isErr err then ret (PNil, err) else
  '(b, err) <- getBoolean r ;;
  if isErr err then ret (PNil, err) else
  ret (PNew (a || b), None).

(** applyEQ applies == operation to l/r operands *)
Definition applyEQ (l r : ExprRef) : M (BooleanLiteralPtr * option error) :=
  let '(as_, err) := getString l in
  if negb (isErr err) then
    let '(bs, err) := getString r in
    if isErr err then
      ret (PFalseExpr, Some (Errorf "Cannot compare string with non-string" []))
    else ret (PNew (String.eqb as_ bs), None)
  else
  let '(an, err) := getNumber l in
  if negb (isErr err) then
    let '(bn, err) := getNumber r in
    if isErr err then
      ret (PFalseExpr, Some (Errorf "Cannot compare number with non-number" []))
    else ret (PNew (PrimFloat.eqb an bn), None)
  else
  '(ab, err) <- getBoolean l ;;
  if negb (isErr err) then
    '(bb, err) <- getBoolean r ;;
    if isErr err then
      ret (PFalseExpr, Some (Errorf "Cannot compare boolean with non-boolean" []))
    else ret (PNew (Bool.eqb ab bb), None)
  else
  ret (PFalseExpr, None).

(** applyNQ applies != operation to l/r operands *)
Definition applyNQ (l r : ExprRef) : M (BooleanLiteralPtr * option error) :=
  let '(as_, err) := getString l in
  if negb (isErr err) then
    let '(bs, err) := getString r in
    if isErr err then
      ret (PFalseExpr, Some (Errorf "Cannot compare string with non-string" []))
    else ret (PNew (negb (String.eqb as_ bs)), None)
  else
  let '(an, err) := getNumber l in
  if negb (isErr err) then
    let '(bn, err) := getNumber r in
    if isErr err then
      ret (PFalseExpr, Some (Errorf "Cannot compare number with non-number" []))
    else ret (PNew (negb (PrimFloat.eqb an bn)), None)
  else
  '(ab, err) <- getBoolean l ;;
  if negb (isErr err) then
    '(bb, err) <- getBoolean r ;;
    if isErr err then
      ret (PFalseExpr, Some (Errorf "Cannot compare boolean with non-boolean" []))
    else ret (PNew (negb (Bool.eqb ab bb)), None)
  else
  ret (PFalseExpr, None).

(** [a > b] and [a >= b] on [float64]: false when either side is a NaN. *)
Definition float_gt (a b : float) : bool := PrimFloat.ltb b a.
Definition float_ge (a b : float) : bool := PrimFloat.leb b a.

(** applyGT applies > operation to l/r operands *)
Definition applyGT (l r : ExprRef) : M (BooleanLiteralPtr * option error) :=
  let '(a, err) := getNumber l in
  if isErr err then ret (PNil, err) else
  let '(b, err) := getNumber r in
  if isErr err then ret (PNil, err) else
  ret (PNew (float_gt a b), None).

(** applyGTE applies >= operation to l/r operands *)
Definition applyGTE (l r : ExprRef) : M (BooleanLiteralPtr * option error) :=
  let '(a, err) := getNumber l in
  if isErr err then ret (PNil, err) else
  let '(b, err) := getNumber r in
  if isErr err then ret (PNil, err) else
  ret (PNew (float_ge a b), None).

(** applyLT applies < operation to l/r operands *)
Definition applyLT (l r : ExprRef) : M (BooleanLiteralPtr * option error) :=
  let '(a, err) := getNumber l in
  if isErr err then ret (PNil, err) else
  let '(b, err) := getNumber r in
  if isErr err then ret (PNil, err) else
  ret (PNew (PrimFloat.ltb a b), None).

(** applyLTE applies <= operation to l/r operands *)
Definition applyLTE (l r : ExprRef) : M (BooleanLiteralPtr * option error) :=
  let '(a, err) := getNumber l in
  if isErr err then ret (PFalseExpr, err) else
  let '(b, err) := getNumber r in
  if isErr err then ret (PFalseExpr, err) else
  ret (PNew (PrimFloat.leb a b), None).

(** ** Operators that call the host, and the evaluator *)

Section Evaluator.

(** [regexp.MatchString(pattern, s)], of Go's standard library: whether [s]
    contains a match of [pattern], and the error of compiling [pattern]. *)
Variable regexp_MatchString : string -> string -> bool * option error.

(** [time.Now()]: the instant the clock shows at its n-th reading. *)
Variable time_Now : nat -> Time.

(** [time.Since(t)], which is [time.Now().Sub(t)]. *)
Definition time_Since (t : Time) : M Duration :=
  fun s =>
    Returns (time_Sub (time_Now (clock_reads s)) t)
            (mkState (falseExpr_Val s) (S (clock_reads s))).

(** applyEREG applies EREG operation to l/r operands *)
Definition applyEREG (l r : ExprRef) : M (BooleanLiteralPtr * option error) :=
  let '(a, err) := getString l in
  if isErr err then ret (PNil, err) else
  let '(b, err) := getString r in
  if isErr err then ret (PNil, err) else
  let '(match_, err) := regexp_MatchString b a in
  ret (PNew match_, err).

Definition applyNEREG (l r : ExprRef) : M (BooleanLiteralPtr * option error) :=
  '(result, err) <- applyEREG l r ;;
  result <- negate_Val result ;;
  ret (result, err).

Definition applyBefore (l r : ExprRef) : M (BooleanLiteralPtr * option error) :=
  match l with
  | Node (TimeLiteral _) =>
      let '(dt, err) := getTime l in
      if isErr err then ret (PNil, err) else
      match r with
      | Node (NumberLiteral _) =>
          let '(days, err) := getNumber r in
          if isErr err then ret (PNil, err) else
          let dur := wrap64 (wrap64 (float64_to_int64 days * Second) * 86400) in
          since <- time_Since dt ;;
          if (since >? dur)%Z then ret (PNew true, None)
          else ret (PNew false, None)
      | _ => ret (PNew false, None)
      end
  | _ =>
      ret (PNil, Some (Errorf "Can not evaluate Literal of unknow type %s %T"
                         [AExpr l; AExpr l]))
  end.

(** applyOperator is a dispatcher of the evaluation according to operator *)
Definition applyOperator (op : Token) (l r : ExprRef)
  : M (BooleanLiteralPtr * option error) :=
  match op with
  | AND => applyAND l r
  | OR => applyOR l r
  | EQ => applyEQ l r
  | NEQ => applyNQ l r
  | GT => applyGT l r
  | GTE => applyGTE l r
  | LT => applyLT l r
  | LTE => applyLTE l r
  | XOR => applyXOR l r
  | NAND => applyNAND l r
  | IN => applyIN l r
  | CONTAINS => applyContains l r
  | BEFORE => applyBefore l r
  | NOTIN => applyNOTIN l r
  | EREG => applyEREG l r
  | NEREG => applyNEREG l r
  | _ => ret (PNew false, Some (Errorf "Unsupported operator: %s" [AToken op]))
  end.

(** evaluateSubtree performs given expr evaluation recursively *)
Fixpoint evaluateSubtree (expr : Expr) (args : GoValue) : M (ExprRef * option error) :=
  match expr with
  | NilExpr =>
      ret (FalseExprRef, Some (Errorf "Provided expression is nil" []))
  | ParenExpr inner => evaluateSubtree inner args
  | BinaryExpr op lhs rhs =>
      '(lv, err) <- evaluateSubtree lhs args ;;
      if isErr err then ret (FalseExprRef, err) else
      '(rv, err) <- evaluateSubtree rhs args ;;
      if isErr err then ret (FalseExprRef, err) else
      '(result, err) <- applyOperator op lv rv ;;
      ret (toExpr result, err)
  | VarRef index =>
      val <- lookupArg index args ;;
      match val with
      | inr err => ret (FalseExprRef, Some err)
      | inl val => literalOf index val
      end
  | _ => ret (Node expr, None)
  end.

(** Evaluate takes an expr and evaluates it using given args *)
Definition Evaluate (expr : Expr) (args : GoValue) : M (bool * option error) :=
  match expr with
  | NilExpr => ret (false, Some (Errorf "Provided expression is nil" []))
  | _ =>
      '(result, err) <- evaluateSubtree expr args ;;
      if isErr err then ret (false, err) else
      match result with
      | Node (BooleanLiteral v) => ret (v, None)
      | NilBoolean => v <- load_Val PNil ;; ret (v, None)
      | FalseExprRef => v <- load_Val PFalseExpr ;; ret (v, None)
      | _ =>
          ret (false,
               Some (Errorf "Unexpected result of the root expression: %#v"
                       [AExpr result]))
      end
  end.

End Evaluator.

(** ** Instances of the host functions for closed examples *)

Local Open Scope Z_scope.

(** Regular expressions without metacharacters: such a pattern compiles, and
    matches where it occurs in the subject. *)
Definition literal_MatchString (pattern s : string) : bool * option error :=
  (strings_Contains s pattern, None).

(** A clock that starts at [t0] and is [step] nanoseconds later at each
    reading. *)
Definition ticking (t0 step : Z) (n : nat) : Time := (t0 + Z.of_nat n * step)%Z.

(** One day, in nanoseconds. *)
Definition day : Z := (86400 * Second)%Z.

(** ** Vocabulary of the statements *)

(** Whether a variable reference occurs in an expression. *)
Fixpoint mentions_VarRef (e : Expr) : bool :=
  match e with
  | VarRef _ => true
  | ParenExpr inner => mentions_VarRef inner
  | BinaryExpr _ lhs rhs => mentions_VarRef lhs || mentions_VarRef rhs
  | _ => false
  end.

Definition Token_eqb (a b : Token) : bool :=
  match a, b with
  | ILLEGAL, ILLEGAL | EOF, EOF | IDENT, IDENT | VARIABLE, VARIABLE
  | STRING, STRING | NUMBER, NUMBER | BOOLEAN, BOOLEAN
  | LPAREN, LPAREN | RPAREN, RPAREN
  | AND, AND | OR, OR | EQ, EQ | NEQ, NEQ | GT, GT | GTE, GTE | LT, LT
  | LTE, LTE | XOR, XOR | NAND, NAND | IN, IN | CONTAINS, CONTAINS
  | BEFORE, BEFORE | NOTIN, NOTIN | EREG, EREG | NEREG, NEREG => true
  | _, _ => false
  end.

(** Whether the operator [op] is applied somewhere in an expression. *)
Fixpoint applies (op : Token) (e : Expr) : bool :=
  match e with
  | ParenExpr inner => applies op inner
  | BinaryExpr op' lhs rhs => Token_eqb op op' || applies op lhs || applies op rhs
  | _ => false
  end.

(** The operands [EQ] and [NEQ] compare: a string, a number or a boolean.
    The pointer [falseExpr] is a boolean, whose value is in the state. *)
Inductive Comparable :=
| CString (v : string)
| CNumber (v : float)
| CBoolean (v : bool).

Definition comparable (s : State) (e : ExprRef) : option Comparable :=
  match e with
  | Node (StringLiteral v) => Some (CString v)
  | Node (NumberLiteral v) => Some (CNumber v)
  | Node (BooleanLiteral v) => Some (CBoolean v)
  | FalseExprRef => Some (CBoolean (falseExpr_Val s))
  | _ => None
  end.

Definition kind_name (c : Comparable) : string :=
  match c with
  | CString _ => "string"
  | CNumber _ => "number"
  | CBoolean _ => "boolean"
  end.

(** The row of [EQ] in the operator table of the specification: equality
    of two operands of one kind, and the error "cannot compare X with non-X"
    when the left operand is an X and the right one is not. *)
Definition EQ_spec (l : Comparable) (r : option Comparable) : bool + error :=
  match l, r with
  | CString a, Some (CString b) => inl (String.eqb a b)
  | CNumber a, Some (CNumber b) => inl (PrimFloat.eqb a b)
  | CBoolean a, Some (CBoolean b) => inl (Bool.eqb a b)
  | _, _ =>
      inr (Errorf ("Cannot compare " ++ kind_name l ++ " with non-" ++ kind_name l) [])
  end.

(** The comparable pairs of operands: two strings, two numbers or two
    booleans. *)
Definition comparable_pair (s : State) (l r : ExprRef) : bool :=
  match comparable s l, comparable s r with
  | Some (CString _), Some (CString _)
  | Some (CNumber _), Some (CNumber _)
  | Some (CBoolean _), Some (CBoolean _) => true
  | _, _ => false
  end.

(** How an operator returns such an answer; [neq] asks for the inequality. *)
Definition comparison_result (neq : bool) (a : bool + error)
  : BooleanLiteralPtr * option error :=
  match a with
  | inl b => (PNew (if neq then negb b else b), None)
  | inr e => (PFalseExpr, Some e)
  end.

(** The row of [BEFORE] in the operator table of the specification, read
    with the day count as the number it is: whether [elapsed] nanoseconds
    exceed [days] times 86400 seconds.  A finite [days] is [m * 2 ^ e], signed;
    both sides are scaled by the power of two that makes them integers. *)
Definition exceeds_days (elapsed : Z) (days : float) : bool :=
  match Prim2SF days with
  | S754_zero _ => elapsed >? 0
  | S754_finite sg m e =>
      elapsed * 2 ^ Z.max 0 (- e) >? cond_Zopp sg (Zpos m * 2 ^ Z.max 0 e) * day
  | S754_infinity sg => sg
  | S754_nan => false
  end.

(** Whether a number is a whole number. *)
Definition whole (x : float) : bool :=
  match Prim2SF x with
  | S754_zero _ => true
  | S754_finite _ m e => (0 <=? e) || (Zpos m mod 2 ^ (- e) =? 0)
  | S754_infinity _ | S754_nan => false
  end.

(** The largest day count whose duration in nanoseconds fits [int64]. *)
Definition max_days : Z := 106751.

(** Two computations agree when, started in states that hold the same
    [falseExpr], they end alike, with the same value or the same panic, and
    leave the state as they found it. *)
Definition agree {A} (c c' : M A) : Prop :=
  forall s s',
    falseExpr_Val s = falseExpr_Val s' ->
    match c s with
    | Returns a s1 => s1 = s /\ c' s' = Returns a s'
    | Panics p => c' s' = Panics p
    end.

(** A computation that leaves [falseExpr] as it found it. *)
Definition preserves_falseExpr {A} (c : M A) : Prop :=
  forall s a s1, c s = Returns a s1 -> falseExpr_Val s1 = falseExpr_Val s.

(** The kinds whose case in [evaluateSubtree] asserts one dynamic type. *)
Definition asserted_kind (k : reflect.Kind) : bool :=
  match k with
  | reflect.Int | reflect.Int32 | reflect.Int64 | reflect.Float32
  | reflect.Float64 | reflect.String | reflect.Bool | reflect.Slice => true
  | _ => false
  end.

(** The classification of section 4.3 of the specification: the literal a
    value of each supported dynamic type becomes. *)
Definition literal_of_value (v : GoValue) : option Expr :=
  match v with
  | GoTime t => Some (TimeLiteral t)
  | GoInt n | GoInt32 n | GoInt64 n => Some (NumberLiteral (float64_of_int n))
  | GoFloat32 x | GoFloat64 x => Some (NumberLiteral x)
  | GoString s => Some (StringLiteral s)
  | GoBool b => Some (BooleanLiteral b)
  | GoStrings l => Some (SliceStringLiteral l)
  | _ => None
  end.




(** Operands whose dynamic type is [*BooleanLiteral], [*NumberLiteral]. *)
Definition is_boolean (e : ExprRef) : bool :=
  match e with
  | Node (BooleanLiteral _) | NilBoolean | FalseExprRef => true
  | _ => false
  end.

Definition is_number (e : ExprRef) : bool :=
  match e with
  | Node (NumberLiteral _) => true
  | _ => false
  end.

(** The expression without its parentheses. *)
Fixpoint strip_parens (e : Expr) : Expr :=
  match e with
  | ParenExpr inner => strip_parens inner
  | BinaryExpr op lhs rhs => BinaryExpr op (strip_parens lhs) (strip_parens rhs)
  | _ => e
  end.

(** The tokens [applyOperator] has a case for. *)
Definition is_operator (op : Token) : bool :=
  match op with
  | AND | OR | EQ | NEQ | GT | GTE | LT | LTE | XOR | NAND
  | IN | CONTAINS | BEFORE | NOTIN | EREG | NEREG => true
  | _ => false
  end.

(** An expression without a nil operand, whose binary nodes all carry an
    operator. *)
Fixpoint well_formed (e : Expr) : bool :=
  match e with
  | NilExpr => false
  | ParenExpr inner => well_formed inner
  | BinaryExpr op lhs rhs => is_operator op && well_formed lhs && well_formed rhs
  | _ => true
  end.

(** Whether the variable [x] occurs in an expression. *)
Fixpoint mentions (x : string) (e : Expr) : bool :=
  match e with
  | VarRef y => String.eqb x y
  | ParenExpr inner => mentions x inner
  | BinaryExpr _ lhs rhs => mentions x lhs || mentions x rhs
  | _ => false
  end.

(** Whether every variable of an expression is the name of an exported
    binding of [m]. *)
Fixpoint resolves_in (m : list Binding) (e : Expr) : bool :=
  match e with
  | VarRef x =>
      exported x && match map_lookup x m with Some _ => true | None => false end
  | ParenExpr inner => resolves_in m inner
  | BinaryExpr _ lhs rhs => resolves_in m lhs && resolves_in m rhs
  | _ => true
  end.

(** How many times [BEFORE] is applied in an expression. *)
Fixpoint count_BEFORE (e : Expr) : nat :=
  match e with
  | ParenExpr inner => count_BEFORE inner
  | BinaryExpr op lhs rhs =>
      ((if Token_eqb BEFORE op then 1 else 0) + count_BEFORE lhs + count_BEFORE rhs)%nat
  | _ => 0%nat
  end.

(** Whether a call returned with a nil error. *)
Definition succeeds {A} (o : Outcome (A * option error)) : bool :=
  match o with
  | Returns (_, None) _ => true
  | _ => false
  end.

(** Operands whose dynamic type is [*StringLiteral]. *)
Definition is_string (e : ExprRef) : bool :=
  match e with
  | Node (StringLiteral _) => true
  | _ => false
  end.

(** ** Inputs of the scenarios of the specification *)

Definition scenario_expr : Expr :=
  BinaryExpr AND
    (BinaryExpr AND
       (BinaryExpr EQ (VarRef "Name") (StringLiteral "test"))
       (BinaryExpr GT (VarRef "Height") (NumberLiteral 100)))
    (BinaryExpr EQ (VarRef "Male") (BooleanLiteral false)).

Definition people (Name : string) (Height : Z) (Male : bool) : GoValue :=
  GoStruct [binding "Name" (GoString Name); binding "Height" (GoInt32 Height);
            binding "Male" (GoBool Male)].

(** * Properties *)

(** Unfolds the monad so that a computation reduces by [simpl]. *)
Ltac run := unfold bind, ret, panic, load_Val, negate_Val in *; simpl in *.

(** Splits a goal [agree c c'] along the structure the two computations
    share. *)
Ltac agree_step :=
  match goal with
  | |- agree (ret _) (ret _) => intros ? ? ?; simpl; auto
  | |- agree (panic _) (panic _) => intros ? ? ?; reflexivity
  | |- agree (match ?x with _ => _ end) _ => destruct x
  end.

(** ** The scenarios of the specification *)

Example scenario_1 :
  Evaluate literal_MatchString (ticking 0 0) scenario_expr
    (GoMap [binding "Name" (GoString "test"); binding "Height" (GoInt 180);
            binding "Male" (GoBool false)]) init
  = Returns (true, None) init.
Proof. vm_compute. reflexivity. Qed.

Example scenario_2 :
  Evaluate literal_MatchString (ticking 0 0) scenario_expr (people "test" 50 false) init
  = Returns (false, None) init.
Proof. vm_compute. reflexivity. Qed.

Example scenario_5 :
  result_of (Evaluate literal_MatchString (ticking 0 0) scenario_expr (GoString "") init)
  = Value (false, Some (Errorf "Args: `%v` is not map or struct" [AGo (GoString "")])).
Proof. vm_compute. reflexivity. Qed.

Example scenario_3 :
  Evaluate literal_MatchString (ticking 0 0)
    (BinaryExpr AND
       (ParenExpr (BinaryExpr CONTAINS (VarRef "Goods") (StringLiteral "A")))
       (BinaryExpr EQ (VarRef "Name") (StringLiteral "test")))
    (GoMap [binding "Name" (GoString "test");
            binding "Goods" (GoStrings ["A"; "B"])]) init
  = Returns (true, None) init.
Proof. vm_compute. reflexivity. Qed.

(** [Birth] two days before the reading of the clock, then at the reading. *)
Example scenario_4 :
  Evaluate literal_MatchString (ticking (2 * day) 0)
    (BinaryExpr BEFORE (VarRef "Birth") (NumberLiteral 1))
    (GoStruct [binding "Birth" (GoTime 0)]) init
  = Returns (true, None) (mkState false 1)
  /\ Evaluate literal_MatchString (ticking (2 * day) 0)
       (BinaryExpr BEFORE (VarRef "Birth") (NumberLiteral 1))
       (GoStruct [binding "Birth" (GoTime (2 * day))]) init
     = Returns (false, None) (mkState false 1).
Proof. split; vm_compute; reflexivity. Qed.

(** ** Errors of [Evaluate] *)

(** C10: whenever [Evaluate] returns a non-nil error, the boolean it returns
    with it is false. *)
Theorem Evaluate_error_false :
  forall re now expr args s b err s',
    Evaluate re now expr args s = Returns (b, Some err) s' -> b = false.
Proof.
  intros re now expr args s b err s' H.
  unfold Evaluate in H.
  destruct expr; run;
    try (inversion H; reflexivity);
    match type of H with
    | context [match ?c with Returns _ _ => _ | Panics _ => _ end] =>
        destruct c as [[result [e|]] s1|p]; simpl in H
    end;
    try (inversion H; reflexivity);
    try discriminate;
    destruct result as [[]| |]; simpl in H;
    try (inversion H; reflexivity); try discriminate.
Qed.

Lemma Evaluate_error_false_witness :
  Evaluate literal_MatchString (ticking 0 0) scenario_expr (GoString "") init
  = Returns (false, Some (Errorf "Args: `%v` is not map or struct" [AGo (GoString "")])) init
  /\ false = false.
Proof.
  split; [vm_compute; reflexivity|].
  apply (Evaluate_error_false literal_MatchString (ticking 0 0) scenario_expr
           (GoString "") init false
           (Errorf "Args: `%v` is not map or struct" [AGo (GoString "")]) init).
  vm_compute; reflexivity.
Defined.

(** ** Crashes and silent results *)

(** C1: the claim that no input makes evaluation crash fails on
    [$A NOTIN $B] with a record that binds [A] and [B] to booleans: [applyIN]
    returns a nil result with its error, and [applyNOTIN] writes to the field
    [Val] of that nil pointer before it looks at the error.  [NEREG] does the
    same after [applyEREG], here on [$A NEREG $B]. *)
Theorem NOTIN_crashes :
  forall re now s,
    let args := GoMap [binding "A" (GoBool true); binding "B" (GoBool true)] in
    Evaluate re now (BinaryExpr NOTIN (VarRef "A") (VarRef "B")) args s
    = Panics NilDereference
    /\ Evaluate re now (BinaryExpr NEREG (VarRef "A") (VarRef "B")) args s
       = Panics NilDereference.
Proof. intros re now s; split; reflexivity. Qed.

(** C2: the claim that operands of the wrong kind always yield an error, and
    never a silent [false], fails on [$Birth BEFORE "1"] (the inner type
    switch of [applyBefore] has no default case) and on [$Birth == $Birth]
    with [Birth] a time ([applyEQ] ends in [return falseExpr, nil]): both
    evaluate to [false] with a nil error. *)
Theorem wrong_kind_silently_false :
  forall re now t,
    let args := GoStruct [binding "Birth" (GoTime t)] in
    Evaluate re now (BinaryExpr BEFORE (VarRef "Birth") (StringLiteral "1")) args init
    = Returns (false, None) init
    /\ Evaluate re now (BinaryExpr EQ (VarRef "Birth") (VarRef "Birth")) args init
       = Returns (false, None) init
    /\ Evaluate re now (BinaryExpr NEQ (VarRef "Birth") (VarRef "Birth")) args init
       = Returns (false, None) init.
Proof. intros re now t; repeat split; reflexivity. Qed.

(** C5: the claim that every runtime type outside the listed ones yields an
    "unsupported argument type" error fails on a value of a slice type other
    than [[]string] (a sequence of integers, say): the case [reflect.Slice]
    asserts [val.([]string)] without the comma-ok form, and evaluation
    crashes.  A value of a defined type of kind int, and a nil value, crash
    in the same way. *)
Theorem unsupported_slice_crashes :
  forall re now s,
    Evaluate re now (VarRef "x") (GoMap [binding "x" (GoOther reflect.Slice)]) s
    = Panics TypeAssertion
    /\ Evaluate re now (VarRef "x") (GoMap [binding "x" (GoOther reflect.Int)]) s
       = Panics TypeAssertion
    /\ Evaluate re now (VarRef "x") (GoMap [binding "x" GoNil]) s
       = Panics NilDereference.
Proof. intros re now s; repeat split; reflexivity. Qed.

(** ** Order of evaluation *)

(** C7: a binary expression reduces its left operand, then its right operand
    in the state the left one leaves, and only then applies the operator to
    the two values; an error or a crash of an operand ends the evaluation,
    and nothing else does: no value of the left operand keeps the right one
    from being reduced.  So with a boolean on the left, whichever it is and
    whatever the operator, [AND] and [OR] included, a variable on the right
    that the map does not bind makes the evaluation fail, and one bound to
    nil makes it crash; and when both operands fail, the error is that of the
    left one. *)
Theorem no_short_circuit :
  forall re now op lhs rhs args s,
    evaluateSubtree re now (BinaryExpr op lhs rhs) args s
    = match evaluateSubtree re now lhs args s with
      | Panics p => Panics p
      | Returns (_, Some err) s1 => Returns (FalseExprRef, Some err) s1
      | Returns (lv, None) s1 =>
          match evaluateSubtree re now rhs args s1 with
          | Panics p => Panics p
          | Returns (_, Some err) s2 => Returns (FalseExprRef, Some err) s2
          | Returns (rv, None) s2 =>
              match applyOperator re now op lv rv s2 with
              | Panics p => Panics p
              | Returns (result, err) s3 => Returns (toExpr result, err) s3
              end
          end
      end
    /\ (forall b x m,
           map_lookup x m = None ->
           Evaluate re now (BinaryExpr op (BooleanLiteral b) (VarRef x)) (GoMap m) s
           = Returns (false, Some (Errorf "Argument: `%v` not found" [AString x])) s)
    /\ (forall b x m,
           map_lookup x m = Some GoNil ->
           Evaluate re now (BinaryExpr op (BooleanLiteral b) (VarRef x)) (GoMap m) s
           = Panics NilDereference)
    /\ (forall x y m,
           map_lookup x m = None ->
           Evaluate re now (BinaryExpr op (VarRef x) (VarRef y)) (GoMap m) s
           = Returns (false, Some (Errorf "Argument: `%v` not found" [AString x])) s).
Proof.
  intros re now op lhs rhs args s. split; [|split; [|split]].
  - simpl. unfold bind.
    destruct (evaluateSubtree re now lhs args s) as [[lv [el|]] s1|p];
      simpl; try reflexivity.
    destruct (evaluateSubtree re now rhs args s1) as [[rv [er|]] s2|p];
      simpl; try reflexivity.
    destruct (applyOperator re now op lv rv s2) as [[result err] s3|p];
      reflexivity.
  - intros b x m H. unfold Evaluate. simpl. unfold bind, lookupArg. simpl.
    rewrite H. reflexivity.
  - intros b x m H. unfold Evaluate. simpl. unfold bind, lookupArg. simpl.
    rewrite H. reflexivity.
  - intros x y m H. unfold Evaluate. simpl. unfold bind, lookupArg. simpl.
    rewrite H. reflexivity.
Qed.

(** [false AND $missing] fails, although [false] decides the conjunction,
    and [true OR $nothing] crashes, although [true] decides the
    disjunction. *)
Lemma no_short_circuit_witness :
  Evaluate literal_MatchString (ticking 0 0)
    (BinaryExpr AND (BooleanLiteral false) (VarRef "missing")) (GoMap []) init
  = Returns (false, Some (Errorf "Argument: `%v` not found" [AString "missing"])) init
  /\ Evaluate literal_MatchString (ticking 0 0)
       (BinaryExpr OR (BooleanLiteral true) (VarRef "nothing"))
       (GoMap [binding "nothing" GoNil]) init
     = Panics NilDereference.
Proof.
  split.
  - apply (proj1 (proj2 (no_short_circuit literal_MatchString (ticking 0 0) AND
                           NilExpr NilExpr GoNil init)) false "missing" []).
    reflexivity.
  - apply (proj1 (proj2 (proj2 (no_short_circuit literal_MatchString (ticking 0 0) OR
                                  NilExpr NilExpr GoNil init)))
             true "nothing" [binding "nothing" GoNil]).
    reflexivity.
Defined.

(** ** Comparison and negated operators *)

(** C8: [EQ] and [NEQ] try the left operand as a string, then as a number,
    then as a boolean.  When it is of one of these kinds X, the result is the
    equality (for [NEQ] the inequality) of the operands if the right operand
    is an X too, and the error "Cannot compare X with non-X" otherwise.  The
    right operand is any reduced operand: a nil [*BooleanLiteral] is what an
    operator returns with an error, and never reaches another operator. *)
Theorem EQ_NEQ_by_kind :
  forall l r s cl,
    comparable s l = Some cl ->
    r <> NilBoolean ->
    applyEQ l r s = Returns (comparison_result false (EQ_spec cl (comparable s r))) s
    /\ applyNQ l r s = Returns (comparison_result true (EQ_spec cl (comparable s r))) s.
Proof.
  intros l r s cl Hl Hr.
  destruct l as [[]| |]; simpl in Hl; inversion Hl; subst cl; clear Hl;
    destruct r as [[]| |]; try contradiction; split; reflexivity.
Qed.

Lemma EQ_NEQ_by_kind_witness :
  (applyEQ (Node (StringLiteral "test")) (Node (StringLiteral "test")) init
   = Returns (PNew true, None) init
   /\ applyNQ (Node (StringLiteral "test")) (Node (StringLiteral "test")) init
      = Returns (PNew false, None) init)
  /\ (applyEQ (Node (NumberLiteral 1)) (Node (StringLiteral "1")) init
      = Returns (PFalseExpr, Some (Errorf "Cannot compare number with non-number" [])) init
      /\ applyNQ (Node (NumberLiteral 1)) (Node (StringLiteral "1")) init
         = Returns (PFalseExpr, Some (Errorf "Cannot compare number with non-number" [])) init).
Proof.
  split.
  - apply (EQ_NEQ_by_kind (Node (StringLiteral "test")) (Node (StringLiteral "test"))
             init (CString "test")); [reflexivity | discriminate].
  - apply (EQ_NEQ_by_kind (Node (NumberLiteral 1)) (Node (StringLiteral "1"))
             init (CNumber 1)); [reflexivity | discriminate].
Defined.

(** The scan of [IN] finds whether an element equals the sought value. *)
Lemma fold_scan :
  forall A (eqb : A -> A -> bool) a b found,
    fold_left (fun found e => if eqb a e then true else found) b found
    = found || existsb (eqb a) b.
Proof.
  intros A eqb a b. induction b as [|e b IH]; intros found; simpl.
  - rewrite orb_false_r. reflexivity.
  - rewrite IH. destruct (eqb a e), found; reflexivity.
Qed.

(** C9, as amended: the negated operators.  On every comparable pair of
    operands [applyEQ] returns a boolean and [applyNQ] its negation.  With a
    string (a number) on the left and a sequence of strings (of numbers) on
    the right, [applyIN] returns whether the sequence holds the left operand
    and [applyNOTIN] the negation.  On all operands [applyNAND] returns what
    [applyAND] returns, the boolean negated.  On two strings [applyEREG]
    returns the answer of the matcher and [applyNEREG] its negation, each
    with the error of the matcher. *)
Theorem negated_operators :
  forall re l r s,
    (comparable_pair s l r = true ->
     exists b,
       applyEQ l r s = Returns (PNew b, None) s
       /\ applyNQ l r s = Returns (PNew (negb b), None) s)
    /\ (forall a b,
           applyIN (Node (StringLiteral a)) (Node (SliceStringLiteral b)) s
           = Returns (PNew (existsb (String.eqb a) b), None) s
           /\ applyNOTIN (Node (StringLiteral a)) (Node (SliceStringLiteral b)) s
              = Returns (PNew (negb (existsb (String.eqb a) b)), None) s)
    /\ (forall a b,
           applyIN (Node (NumberLiteral a)) (Node (SliceNumberLiteral b)) s
           = Returns (PNew (existsb (PrimFloat.eqb a) b), None) s
           /\ applyNOTIN (Node (NumberLiteral a)) (Node (SliceNumberLiteral b)) s
              = Returns (PNew (negb (existsb (PrimFloat.eqb a) b)), None) s)
    /\ applyNAND l r s
       = match applyAND l r s with
         | Returns (PNew b, err) s' => Returns (PNew (negb b), err) s'
         | o => o
         end
    /\ (forall a pattern,
           applyEREG re (Node (StringLiteral a)) (Node (StringLiteral pattern)) s
           = Returns (PNew (fst (re pattern a)), snd (re pattern a)) s
           /\ applyNEREG re (Node (StringLiteral a)) (Node (StringLiteral pattern)) s
              = Returns (PNew (negb (fst (re pattern a))), snd (re pattern a)) s).
Proof.
  intros re l r s. split; [|split; [|split; [|split]]].
  - unfold comparable_pair. intros H.
    destruct l as [[]| |]; simpl in H; try discriminate;
      destruct r as [[]| |]; simpl in H; try discriminate;
      eexists; split; reflexivity.
  - intros a b. unfold applyNOTIN, bind. simpl. unfold ret, scan.
    rewrite fold_scan. split; reflexivity.
  - intros a b. unfold applyNOTIN, bind. simpl. unfold ret, scan.
    rewrite fold_scan. split; reflexivity.
  - destruct l as [[]| |]; destruct r as [[]| |]; reflexivity.
  - intros a pattern. unfold applyNEREG, applyEREG, bind. simpl.
    destruct (re pattern a) as [m e]. split; reflexivity.
Qed.

(** C9 as stated fails: on two booleans [applyIN] returns a nil result with
    its error, and [applyNOTIN] crashes instead of returning a negation. *)
Lemma NOTIN_of_failed_IN :
  applyIN (Node (BooleanLiteral true)) (Node (BooleanLiteral true)) init
  = Returns (PNil, Some (Errorf "Can not evaluate Literal of unknow type %s %T"
                           [AExpr (Node (BooleanLiteral true));
                            AExpr (Node (BooleanLiteral true))])) init
  /\ applyNOTIN (Node (BooleanLiteral true)) (Node (BooleanLiteral true)) init
     = Panics NilDereference.
Proof. split; reflexivity. Qed.

Lemma negated_operators_witness :
  exists b,
    applyEQ (Node (NumberLiteral 1)) (Node (NumberLiteral 2)) init
    = Returns (PNew b, None) init
    /\ applyNQ (Node (NumberLiteral 1)) (Node (NumberLiteral 2)) init
       = Returns (PNew (negb b), None) init.
Proof.
  apply (proj1 (negated_operators literal_MatchString (Node (NumberLiteral 1))
                  (Node (NumberLiteral 2)) init)).
  reflexivity.
Defined.

(** Operators other than [NOTIN] and [NEREG] return, and return a nil
    pointer only together with an error. *)
Lemma applyOperator_returns :
  forall re now op l r s,
    op <> NOTIN -> op <> NEREG -> l <> NilBoolean -> r <> NilBoolean ->
    exists p err s',
      applyOperator re now op l r s = Returns (p, err) s'
      /\ (err = None -> p <> PNil).
Proof.
  intros re now op l r s Hn1 Hn2 Hl Hr.
  destruct op; try congruence;
    destruct l as [[]| |]; try congruence;
    destruct r as [[]| |]; try congruence;
    unfold applyOperator, applyEREG, applyBefore, time_Since; run;
    try match goal with
        | |- context [re ?b ?a] => destruct (re b a) as [m e]
        | |- context [if ?c then _ else _] => destruct c
        end;
    do 3 eexists; (split; [reflexivity | intro; discriminate]).
Qed.

(** ** Evaluation without [NOTIN] and [NEREG] returns *)

Section Returns.

Variable re : string -> string -> bool * option error.
Variable now : nat -> Time.
Variable args : GoValue.

(** Every variable reference resolves, to a literal or to an error. *)
Hypothesis resolves :
  forall index s,
    exists v err s',
      evaluateSubtree re now (VarRef index) args s = Returns (v, err) s'
      /\ (err = None -> v <> NilBoolean).

Lemma subtree_returns :
  forall e s,
    applies NOTIN e = false -> applies NEREG e = false ->
    exists v err s',
      evaluateSubtree re now e args s = Returns (v, err) s'
      /\ (err = None -> v <> NilBoolean).
Proof.
  induction e as [|op lhs IHl rhs IHr|inner IH|index| | | | | | |];
    intros s H1 H2; simpl in H1, H2;
    try (do 3 eexists; split; [reflexivity | intro; discriminate]).
  - apply orb_false_iff in H1. destruct H1 as [H1 H1r].
    apply orb_false_iff in H1. destruct H1 as [Hop1 H1l].
    apply orb_false_iff in H2. destruct H2 as [H2 H2r].
    apply orb_false_iff in H2. destruct H2 as [Hop2 H2l].
    destruct (IHl s H1l H2l) as (lv & el & s1 & El & Nl).
    simpl. unfold bind. rewrite El.
    destruct el as [el|]; simpl.
    { do 3 eexists; split; [reflexivity | intro; discriminate]. }
    destruct (IHr s1 H1r H2r) as (rv & er & s2 & Er & Nr).
    rewrite Er.
    destruct er as [er|]; simpl.
    { do 3 eexists; split; [reflexivity | intro; discriminate]. }
    destruct (applyOperator_returns re now op lv rv s2) as (p & err & s3 & Ep & Np);
      try (intro; subst op; discriminate); auto.
    rewrite Ep. unfold ret.
    do 3 eexists; split; [reflexivity|].
    intro E. specialize (Np E). destruct p; simpl; congruence.
  - simpl. apply IH; assumption.
  - apply resolves.
Qed.


End Returns.

(** ** Records that are neither a map nor a struct *)

Section OtherRecords.

Variable re : string -> string -> bool * option error.
Variable now : nat -> Time.
Variable args : GoValue.
Variable k : reflect.Kind.
Hypothesis args_kind : KindOf args = Some k.
Hypothesis not_map : k <> reflect.Map.
Hypothesis not_struct : k <> reflect.Struct.

Lemma lookupArg_rejects :
  forall index s,
    lookupArg index args s
    = Returns (inr (Errorf "Args: `%v` is not map or struct" [AGo args])) s.
Proof.
  intros index s. unfold lookupArg. rewrite args_kind.
  destruct k; try reflexivity; congruence.
Qed.

(** A reduction that reaches a variable reference does not succeed. *)
Lemma VarRef_never_reduces :
  forall e s v s',
    mentions_VarRef e = true ->
    evaluateSubtree re now e args s <> Returns (v, None) s'.
Proof.
  induction e as [|op lhs IHl rhs IHr|inner IH|index| | | | | | |];
    intros s v s' Hm; simpl in Hm; try discriminate.
  - simpl. unfold bind.
    destruct (evaluateSubtree re now lhs args s) as [[lv [el|]] s1|p] eqn:El;
      simpl; try discriminate.
    destruct (evaluateSubtree re now rhs args s1) as [[rv [er|]] s2|p] eqn:Er;
      simpl; try discriminate.
    apply orb_true_iff in Hm. destruct Hm as [Hm|Hm].
    + exfalso. exact (IHl _ _ _ Hm El).
    + exfalso. exact (IHr _ _ _ Hm Er).
  - simpl. apply IH. exact Hm.
  - simpl. unfold bind. rewrite lookupArg_rejects. discriminate.
Qed.

Lemma evaluateSubtree_returns :
  forall e s,
    applies NOTIN e = false -> applies NEREG e = false ->
    exists v err s',
      evaluateSubtree re now e args s = Returns (v, err) s'
      /\ (err = None -> v <> NilBoolean).
Proof.
  apply subtree_returns. intros index s.
  simpl. unfold bind. rewrite lookupArg_rejects.
  do 3 eexists; split; [reflexivity | intro; discriminate].
Qed.

(** C4, as amended: with a record that is not nil and is neither a map nor
    a struct, the evaluation of an expression in which a variable reference
    occurs never yields a result without an error; when the expression
    applies neither [NOTIN] nor [NEREG], [Evaluate] returns false and an
    error. *)
Theorem other_record_rejected :
  forall e s,
    mentions_VarRef e = true ->
    (forall b s', Evaluate re now e args s <> Returns (b, None) s')
    /\ (applies NOTIN e = false -> applies NEREG e = false ->
        exists err s', Evaluate re now e args s = Returns (false, Some err) s').
Proof.
  intros e s Hm. split.
  - intros b s' H.
    assert (Hn : forall v s1, evaluateSubtree re now e args s <> Returns (v, None) s1)
      by (intros v s1; apply VarRef_never_reduces; exact Hm).
    unfold Evaluate in H.
    destruct e; try discriminate; unfold bind in H;
      match type of H with
      | context [match ?c with Returns _ _ => _ | Panics _ => _ end] =>
          destruct c as [[result [e0|]] s1|p] eqn:E; simpl in H
      end;
      try discriminate; exact (Hn _ _ eq_refl).
  - intros H1 H2.
    destruct (evaluateSubtree_returns e s H1 H2) as (v & err & s1 & E & _).
    destruct err as [err|].
    + exists err, s1.
      unfold Evaluate.
      destruct e; try discriminate; unfold bind; rewrite E; reflexivity.
    + exfalso. exact (VarRef_never_reduces e s v s1 Hm E).
Qed.

End OtherRecords.

(** C4 as stated fails: the record is looked at only where a variable is
    resolved, so an expression without variables evaluates whatever the
    record is. *)
Lemma other_record_accepted :
  Evaluate literal_MatchString (ticking 0 0) (BooleanLiteral true) (GoString "") init
  = Returns (true, None) init.
Proof. reflexivity. Qed.

Lemma other_record_rejected_witness :
  exists err s',
    Evaluate literal_MatchString (ticking 0 0) scenario_expr (GoString "") init
    = Returns (false, Some err) s'.
Proof.
  apply (other_record_rejected literal_MatchString (ticking 0 0) (GoString "")
           reflect.String eq_refl ltac:(discriminate) ltac:(discriminate)
           scenario_expr init eq_refl); reflexivity.
Defined.

(** ** The operator [BEFORE] *)

Lemma wrap64_small : forall z, minInt64 <= z <= maxInt64 -> wrap64 z = z.
Proof.
  intros z H. unfold wrap64, minInt64, maxInt64 in *.
  rewrite Z.mod_small; lia.
Qed.

(** The duration of a day count in range is computed without wrap-around. *)
Lemma days_duration :
  forall n, - max_days <= n <= max_days ->
    wrap64 (wrap64 (n * Second) * 86400) = n * day
    /\ minInt64 < n * day < maxInt64.
Proof.
  intros n H. unfold max_days, day, Second, minInt64, maxInt64 in *.
  rewrite (wrap64_small (n * 1000000000)) by (unfold minInt64, maxInt64; lia).
  rewrite wrap64_small by (unfold minInt64, maxInt64; lia).
  lia.
Qed.

(** Saturation of the elapsed time does not change the comparison with a
    duration strictly inside the range of [int64]. *)
Lemma time_Sub_gtb :
  forall t u d, minInt64 < d < maxInt64 ->
    (time_Sub t u >? d) = (t - u >? d).
Proof.
  intros t u d H. unfold time_Sub.
  destruct (t - u >? maxInt64) eqn:E1; [|destruct (t - u <? minInt64) eqn:E2];
    try reflexivity.
  - apply Z.gtb_gt in E1.
    transitivity true; [|symmetry]; apply Z.gtb_gt; lia.
  - apply Z.ltb_lt in E2.
    rewrite !Z.gtb_ltb.
    transitivity false; [|symmetry]; apply Z.ltb_ge; lia.
Qed.

(** On a whole number in range, truncation is exact: the comparison with
    the truncated day count is the comparison with the day count. *)
Lemma whole_exceeds :
  forall elapsed days,
    whole days = true ->
    - max_days <= float64_to_int64 days <= max_days ->
    (elapsed >? float64_to_int64 days * day) = exceeds_days elapsed days.
Proof.
  intros elapsed days. unfold whole, float64_to_int64, exceeds_days.
  destruct (Prim2SF days) as [sg|sg| |sg m e]; try discriminate.
  - intros _ _. reflexivity.
  - cbv zeta. intros Hw Hr.
    destruct ((minInt64 <=? cond_Zopp sg (Z.shiftl (Z.pos m) e))
              && (cond_Zopp sg (Z.shiftl (Z.pos m) e) <=? maxInt64)) eqn:Hb;
      [clear Hb|unfold minInt64, max_days in Hr; lia].
    destruct (Z.leb_spec 0 e) as [He|He].
    + rewrite Z.shiftl_mul_pow2 by exact He.
      rewrite (Z.max_r 0 e) by lia. rewrite (Z.max_l 0 (- e)) by lia.
      rewrite Z.pow_0_r, Z.mul_1_r. reflexivity.
    + simpl in Hw. apply Z.eqb_eq in Hw.
      rewrite <- Z.shiftr_opp_r, Z.shiftr_div_pow2 by lia.
      rewrite (Z.max_l 0 e) by lia. rewrite (Z.max_r 0 (- e)) by lia.
      rewrite Z.pow_0_r, Z.mul_1_r.
      assert (Hp : 0 < 2 ^ (- e)) by (apply Z.pow_pos_nonneg; lia).
      pose proof (Z.div_mod (Z.pos m) (2 ^ (- e)) ltac:(lia)) as Hd.
      rewrite Hw, Z.add_0_r in Hd.
      set (q := Z.pos m / 2 ^ (- e)) in *.
      set (p := 2 ^ (- e)) in *.
      assert (Hc : cond_Zopp sg (Z.pos m) * day = (cond_Zopp sg q * day) * p).
      { rewrite Hd. destruct sg; simpl; ring. }
      rewrite Hc, !Z.gtb_ltb.
      destruct (Z.ltb_spec (cond_Zopp sg q * day) elapsed) as [L|L];
        symmetry; [apply Z.ltb_lt|apply Z.ltb_ge]; nia.
Qed.

(** C6, as amended: [BEFORE] discards the fraction of the day count.  For a
    time on the left and a number on the right whose truncation [n] is a
    duration in range, [BEFORE] is true if and only if the time elapsed
    since the left operand is strictly greater than [n] days; when the number
    is whole, that is the day count itself. *)
Theorem BEFORE_strictly_exceeds :
  forall now t days s,
    - max_days <= float64_to_int64 days <= max_days ->
    let elapsed := now (clock_reads s) - t in
    applyBefore now (Node (TimeLiteral t)) (Node (NumberLiteral days)) s
    = Returns (PNew (elapsed >? float64_to_int64 days * day), None)
              (mkState (falseExpr_Val s) (S (clock_reads s)))
    /\ (whole days = true ->
        (elapsed >? float64_to_int64 days * day) = exceeds_days elapsed days).
Proof.
  intros now t days s Hr elapsed. split.
  - unfold applyBefore, time_Since. run.
    destruct (days_duration _ Hr) as [Hd Hb].
    rewrite Hd, (time_Sub_gtb _ _ _ Hb). fold elapsed.
    destruct (elapsed >? float64_to_int64 days * day); reflexivity.
  - intro Hw. apply whole_exceeds; assumption.
Qed.

(** C6 as stated fails: a day and a fifth after the time on the left,
    [BEFORE 1.5] is true, although a day and a fifth do not exceed a day and a
    half. *)
Lemma BEFORE_discards_fraction :
  Evaluate literal_MatchString (ticking (day + day / 5) 0)
    (BinaryExpr BEFORE (VarRef "Birth") (NumberLiteral 1.5))
    (GoStruct [binding "Birth" (GoTime 0)]) init
  = Returns (true, None) (mkState false 1)
  /\ exceeds_days (day + day / 5 - 0) 1.5 = false.
Proof. split; vm_compute; reflexivity. Qed.

(** Exactly one day after the time on the left, [BEFORE 1] is false. *)
Lemma BEFORE_strictly_exceeds_witness :
  applyBefore (ticking day 0) (Node (TimeLiteral 0)) (Node (NumberLiteral 1)) init
  = Returns (PNew false, None) (mkState false 1)
  /\ (whole 1 = true -> false = exceeds_days (day - 0) 1).
Proof.
  apply (BEFORE_strictly_exceeds (ticking day 0) 0 1%float init).
  vm_compute. split; discriminate.
Defined.

(** ** Determinism and the state of the package *)

Lemma agree_bind :
  forall A B (c c' : M A) (k k' : A -> M B),
    agree c c' -> (forall a, agree (k a) (k' a)) -> agree (bind c k) (bind c' k').
Proof.
  intros A B c c' k k' Hc Hk s s' E. unfold bind.
  specialize (Hc s s' E).
  destruct (c s) as [a s1|p].
  - destruct Hc as [-> ->]. apply Hk. exact E.
  - rewrite Hc. reflexivity.
Qed.

Lemma agree_load_Val : forall p, agree (load_Val p) (load_Val p).
Proof.
  intros p s s' E. unfold load_Val.
  destruct p; simpl; auto. rewrite E. auto.
Qed.

Lemma agree_getBoolean : forall e, agree (getBoolean e) (getBoolean e).
Proof.
  intros e. unfold getBoolean.
  repeat first
    [ agree_step
    | apply agree_bind; [apply agree_load_Val | intros ?] ].
Qed.

Lemma agree_result :
  forall A (c c' : M A) s s',
    agree c c' -> falseExpr_Val s = falseExpr_Val s' ->
    result_of (c s) = result_of (c' s').
Proof.
  intros A c c' s s' H E. specialize (H s s' E).
  destruct (c s) as [a s1|p].
  - destruct H as [_ ->]. reflexivity.
  - rewrite H. reflexivity.
Qed.

Lemma agree_preserves :
  forall A (c c' : M A), agree c c' -> preserves_falseExpr c.
Proof.
  intros A c c' H s a s1 E. specialize (H s s eq_refl).
  rewrite E in H. destruct H as [-> _]. reflexivity.
Qed.

Lemma preserves_bind :
  forall A B (c : M A) (k : A -> M B),
    preserves_falseExpr c -> (forall a, preserves_falseExpr (k a)) ->
    preserves_falseExpr (bind c k).
Proof.
  intros A B c k Hc Hk s b s2 E. unfold bind in E.
  destruct (c s) as [a s1|p] eqn:Ec; [|discriminate].
  rewrite (Hk a s1 b s2 E). exact (Hc s a s1 Ec).
Qed.

Lemma preserves_ret : forall A (a : A), preserves_falseExpr (ret a).
Proof. intros A a s a' s1 E. inversion E. reflexivity. Qed.

(** Structural steps for the operators that neither write nor read the
    clock. *)
Ltac agree_auto :=
  repeat first
    [ agree_step
    | apply agree_bind; [apply agree_getBoolean | intros ?] ].

Lemma agree_negated :
  forall (c : M (BooleanLiteralPtr * option error)),
    agree c c ->
    (forall s e s', c s <> Returns (PFalseExpr, e) s') ->
    agree ('(result, err) <- c ;; result <- negate_Val result ;; ret (result, err))
          ('(result, err) <- c ;; result <- negate_Val result ;; ret (result, err)).
Proof.
  intros c Hc Hn s s' E. unfold bind.
  pose proof (Hc s s' E) as H. pose proof (Hn s) as N.
  destruct (c s) as [[p e] s1|q].
  - destruct H as [-> ->].
    destruct p; simpl; auto. exfalso. exact (N e s eq_refl).
  - rewrite H. reflexivity.
Qed.

Lemma agree_applyIN : forall l r, agree (applyIN l r) (applyIN l r).
Proof. intros l r. unfold applyIN. agree_auto. Qed.

Lemma applyIN_fresh :
  forall l r s e s', applyIN l r s <> Returns (PFalseExpr, e) s'.
Proof.
  intros l r s e s'. unfold applyIN.
  destruct l as [[]| |]; simpl; try discriminate;
    destruct r as [[]| |]; simpl; discriminate.
Qed.

Lemma agree_applyEREG : forall re l r, agree (applyEREG re l r) (applyEREG re l r).
Proof. intros re l r. unfold applyEREG. agree_auto. Qed.

Lemma applyEREG_fresh :
  forall re l r s e s', applyEREG re l r s <> Returns (PFalseExpr, e) s'.
Proof.
  intros re l r s e s'. unfold applyEREG.
  destruct (getString l) as [a [x|]]; simpl; try discriminate.
  destruct (getString r) as [b [x|]]; simpl; try discriminate.
  destruct (re b a). discriminate.
Qed.

Lemma agree_applyOperator :
  forall re now now' op l r,
    op <> BEFORE ->
    agree (applyOperator re now op l r) (applyOperator re now' op l r).
Proof.
  intros re now now' op l r H.
  destruct op; try congruence; unfold applyOperator;
    try (intros ? ? ?; simpl; auto; fail).
  - unfold applyAND. agree_auto.
  - unfold applyOR. agree_auto.
  - unfold applyEQ. agree_auto.
  - unfold applyNQ. agree_auto.
  - unfold applyGT. agree_auto.
  - unfold applyGTE. agree_auto.
  - unfold applyLT. agree_auto.
  - unfold applyLTE. agree_auto.
  - unfold applyXOR. agree_auto.
  - unfold applyNAND. agree_auto.
  - apply agree_applyIN.
  - unfold applyContains. agree_auto.
  - apply agree_negated; [apply agree_applyIN | apply applyIN_fresh].
  - apply agree_applyEREG.
  - apply agree_negated; [apply agree_applyEREG | apply applyEREG_fresh].
Qed.

Lemma agree_lookupArg :
  forall index args, agree (lookupArg index args) (lookupArg index args).
Proof. intros index args. unfold lookupArg. agree_auto. Qed.

Lemma agree_literalOf :
  forall name val, agree (literalOf name val) (literalOf name val).
Proof. intros name val. unfold literalOf. agree_auto. Qed.

Lemma agree_evaluateSubtree :
  forall re now now' args e,
    applies BEFORE e = false ->
    agree (evaluateSubtree re now e args) (evaluateSubtree re now' e args).
Proof.
  intros re now now' args.
  induction e as [|op lhs IHl rhs IHr|inner IH|index| | | | | | |];
    intros H; simpl in H; simpl; try agree_step.
  - apply orb_false_iff in H. destruct H as [H Hr].
    apply orb_false_iff in H. destruct H as [Hop Hl].
    apply agree_bind; [exact (IHl Hl)|].
    intros [lv [el|]]; simpl; [agree_step|].
    apply agree_bind; [exact (IHr Hr)|].
    intros [rv [er|]]; simpl; [agree_step|].
    apply agree_bind.
    + apply agree_applyOperator. intro; subst op; discriminate.
    + intros [result err]. agree_step.
  - exact (IH H).
  - apply agree_bind; [apply agree_lookupArg|].
    intros [val|err]; [apply agree_literalOf | agree_step].
Qed.

Lemma agree_Evaluate :
  forall re now now' args e,
    applies BEFORE e = false ->
    agree (Evaluate re now e args) (Evaluate re now' e args).
Proof.
  intros re now now' args e H.
  pose proof (agree_evaluateSubtree re now now' args e H) as Hs.
  unfold Evaluate.
  destruct e; try agree_step;
    (apply agree_bind; [exact Hs|]);
    intros [result [err|]]; simpl; agree_auto;
    (apply agree_bind; [apply agree_load_Val | intros ?; agree_step]).
Qed.

Lemma preserves_applyBefore :
  forall now l r, preserves_falseExpr (applyBefore now l r).
Proof.
  intros now l r s a s1 E. unfold applyBefore, time_Since in E.
  destruct l as [[]| |]; destruct r as [[]| |]; run;
    try match type of E with
        | context [if ?c then _ else _] => destruct c
        end;
    inversion E; reflexivity.
Qed.

Lemma preserves_applyOperator :
  forall re now op l r, preserves_falseExpr (applyOperator re now op l r).
Proof.
  intros re now op l r.
  destruct op;
    try (eapply agree_preserves;
         apply agree_applyOperator with (now' := now); discriminate).
  apply preserves_applyBefore.
Qed.

Lemma preserves_evaluateSubtree :
  forall re now args e, preserves_falseExpr (evaluateSubtree re now e args).
Proof.
  intros re now args.
  induction e as [|op lhs IHl rhs IHr|inner IH|index| | | | | | |];
    simpl; try apply preserves_ret.
  - apply preserves_bind; [exact IHl|].
    intros [lv [el|]]; simpl; [apply preserves_ret|].
    apply preserves_bind; [exact IHr|].
    intros [rv [er|]]; simpl; [apply preserves_ret|].
    apply preserves_bind; [apply preserves_applyOperator|].
    intros [result err]. apply preserves_ret.
  - exact IH.
  - apply preserves_bind.
    + apply (agree_preserves _ _ _ (agree_lookupArg index args)).
    + intros [val|err]; [|apply preserves_ret].
      apply (agree_preserves _ _ _ (agree_literalOf index val)).
Qed.

Lemma preserves_Evaluate :
  forall re now args e, preserves_falseExpr (Evaluate re now e args).
Proof.
  intros re now args e.
  pose proof (preserves_evaluateSubtree re now args e) as Hs.
  unfold Evaluate.
  destruct e; try apply preserves_ret;
    (apply preserves_bind; [exact Hs|]);
    intros [result [err|]]; simpl; try apply preserves_ret;
    destruct result as [[]| |]; try apply preserves_ret;
    (apply preserves_bind;
     [apply (agree_preserves _ _ _ (agree_load_Val _))
     |intros ?; apply preserves_ret]).
Qed.

(** C3, as amended: no evaluation modifies [falseExpr], the only state of
    the package; and the outcome of evaluating an expression that does not
    apply [BEFORE] is a function of the expression and the record alone: any
    two evaluations, whatever the clock shows and however often it has been
    read, return the same boolean and error, or crash alike. *)
Theorem Evaluate_deterministic :
  forall re e args,
    (forall now s r s1,
        Evaluate re now e args s = Returns r s1 ->
        falseExpr_Val s1 = falseExpr_Val s)
    /\ (applies BEFORE e = false ->
        forall now now' s s',
          falseExpr_Val s = falseExpr_Val s' ->
          result_of (Evaluate re now e args s)
          = result_of (Evaluate re now' e args s')).
Proof.
  intros re e args. split.
  - intros now s r s1. apply preserves_Evaluate.
  - intros H now now' s s' E.
    apply agree_result; [apply agree_Evaluate; exact H | exact E].
Qed.

(** C3 as stated fails: [BEFORE] reads the clock.  With [Birth] at instant 0
    and a clock that shows one day at its first reading and two days at its
    second, [$Birth BEFORE 1] evaluates to false and then, evaluated again in
    the state the first evaluation left, to true. *)
Lemma BEFORE_depends_on_clock :
  let expr := BinaryExpr BEFORE (VarRef "Birth") (NumberLiteral 1) in
  let args := GoStruct [binding "Birth" (GoTime 0)] in
  Evaluate literal_MatchString (ticking day day) expr args init
  = Returns (false, None) (mkState false 1)
  /\ Evaluate literal_MatchString (ticking day day) expr args (mkState false 1)
     = Returns (true, None) (mkState false 2).
Proof. split; vm_compute; reflexivity. Qed.

Lemma Evaluate_deterministic_witness :
  result_of (Evaluate literal_MatchString (ticking 0 0) scenario_expr
               (people "test" 180 false) init)
  = result_of (Evaluate literal_MatchString (ticking day day) scenario_expr
                 (people "test" 180 false) (mkState false 7)).
Proof.
  apply (Evaluate_deterministic literal_MatchString scenario_expr
           (people "test" 180 false)); reflexivity.
Defined.

(** ** Further properties of variable resolution *)






(** X2: a variable whose lookup yields a value of a supported dynamic type
    reduces to the literal of the classification, and one whose lookup yields
    a value of a kind that no case asserts reduces to the "Unsupported
    argument" error that names the variable and the kind. *)
Theorem VarRef_classified :
  forall re now index args val s,
    lookupArg index args s = Returns (inl val) s ->
    (forall lit,
        literal_of_value val = Some lit ->
        evaluateSubtree re now (VarRef index) args s = Returns (Node lit, None) s)
    /\ (forall k,
           KindOf val = Some k -> asserted_kind k = false ->
           literal_of_value val = None ->
           evaluateSubtree re now (VarRef index) args s
           = Returns (FalseExprRef,
                      Some (Errorf "Unsupported argument %s type: %s"
                              [AString index; AKind k])) s).
Proof.
  intros re now index args val s Hl. simpl. unfold bind. rewrite Hl. split.
  - intros lit H. destruct val; simpl in H; inversion H; reflexivity.
  - intros k Hk Ha Hn.
    destruct val; simpl in Hn; try discriminate; simpl in Hk;
      inversion Hk; subst k; simpl in Ha; try discriminate;
      try reflexivity.
    destruct k0; simpl in Ha; try discriminate; reflexivity.
Qed.

Lemma VarRef_classified_witness :
  evaluateSubtree literal_MatchString (ticking 0 0) (VarRef "Height")
    (people "test" 180 false) init
  = Returns (Node (NumberLiteral 180), None) init.
Proof.
  apply (proj1 (VarRef_classified literal_MatchString (ticking 0 0) "Height"
                  (people "test" 180 false) (GoInt32 180) init eq_refl));
    reflexivity.
Defined.

(** ** Further properties of the operators *)

Lemma scan_from :
  forall A (eqb : A -> A -> bool) a b found,
    fold_left (fun found e => if eqb a e then true else found) b found
    = found || existsb (eqb a) b.
Proof.
  intros A eqb a b. induction b as [|e b IH]; intros found; simpl.
  - rewrite orb_false_r. reflexivity.
  - rewrite IH. destruct (eqb a e), found; reflexivity.
Qed.

(** X3: the scan of [IN] and [CONTAINS], which runs to the end of the
    sequence, finds whether some element equals the sought value: [IN] is
    true exactly when the left operand equals an element of the right one,
    and [CONTAINS] on a sequence when the right operand equals an element of
    the left one. *)
Theorem IN_is_membership :
  forall s,
    (forall a b,
        applyIN (Node (StringLiteral a)) (Node (SliceStringLiteral b)) s
        = Returns (PNew (existsb (String.eqb a) b), None) s)
    /\ (forall a b,
           applyIN (Node (NumberLiteral a)) (Node (SliceNumberLiteral b)) s
           = Returns (PNew (existsb (PrimFloat.eqb a) b), None) s)
    /\ (forall a b,
           applyContains (Node (SliceStringLiteral b)) (Node (StringLiteral a)) s
           = Returns (PNew (existsb (String.eqb a) b), None) s)
    /\ (forall a b,
           applyContains (Node (SliceNumberLiteral b)) (Node (NumberLiteral a)) s
           = Returns (PNew (existsb (PrimFloat.eqb a) b), None) s).
Proof.
  intros s.
  split; [|split; [|split]]; intros a b; simpl; unfold ret, scan;
    rewrite scan_from; reflexivity.
Qed.

(** X4: the logical operators return the error "Literal is not a boolean"
    about the first operand that is not a boolean, and the ordering operators
    the error "Literal is not a number" about the first operand that is not a
    number; no boolean comes with the error, except that [LTE] returns
    [falseExpr] with it. *)
Theorem typed_errors :
  forall re now op l r s,
    ((op = AND \/ op = OR \/ op = XOR \/ op = NAND) ->
     (is_boolean l = false ->
      applyOperator re now op l r s
      = Returns (PNil, Some (Errorf "Literal is not a boolean: %v" [AExpr l])) s)
     /\ (is_boolean l = true -> l <> NilBoolean -> is_boolean r = false ->
         applyOperator re now op l r s
         = Returns (PNil, Some (Errorf "Literal is not a boolean: %v" [AExpr r])) s))
    /\ ((op = GT \/ op = GTE \/ op = LT \/ op = LTE) ->
        let p := match op with LTE => PFalseExpr | _ => PNil end in
        (is_number l = false ->
         applyOperator re now op l r s
         = Returns (p, Some (Errorf "Literal is not a number: %v" [AExpr l])) s)
        /\ (is_number l = true -> is_number r = false ->
            applyOperator re now op l r s
            = Returns (p, Some (Errorf "Literal is not a number: %v" [AExpr r])) s)).
Proof.
  intros re now op l r s. split.
  - intros Hop. split.
    + intros Hl.
      destruct Hop as [ -> | [ -> | [ -> | -> ] ] ];
        destruct l as [[]| |]; simpl in Hl; try discriminate; reflexivity.
    + intros Hl Hn Hr.
      destruct Hop as [ -> | [ -> | [ -> | -> ] ] ];
        destruct l as [[]| |]; simpl in Hl; try discriminate; try congruence;
        destruct r as [[]| |]; simpl in Hr; try discriminate; reflexivity.
  - intros Hop p. split.
    + intros Hl.
      destruct Hop as [ -> | [ -> | [ -> | -> ] ] ];
        destruct l as [[]| |]; simpl in Hl; try discriminate; reflexivity.
    + intros Hl Hr.
      destruct Hop as [ -> | [ -> | [ -> | -> ] ] ];
        destruct l as [[]| |]; simpl in Hl; try discriminate;
        destruct r as [[]| |]; simpl in Hr; try discriminate; reflexivity.
Qed.

Lemma typed_errors_witness :
  applyOperator literal_MatchString (ticking 0 0) GT
    (Node (NumberLiteral 1)) (Node (StringLiteral "1")) init
  = Returns (PNil, Some (Errorf "Literal is not a number: %v"
                           [AExpr (Node (StringLiteral "1"))])) init.
Proof.
  apply (proj2 (proj2 (typed_errors literal_MatchString (ticking 0 0) GT
                         (Node (NumberLiteral 1)) (Node (StringLiteral "1")) init)
                  (or_introl eq_refl)));
    reflexivity.
Defined.

(** ** [CONTAINS] *)

(** X5: [CONTAINS] is [IN] with its operands exchanged, errors included,
    unless both operands are strings, where [CONTAINS] searches a substring
    and [IN] fails. *)
Theorem CONTAINS_is_IN_exchanged :
  forall l r s,
    is_string l && is_string r = false ->
    applyContains l r s = applyIN r l s.
Proof.
  intros l r s H.
  destruct l as [[]| |]; destruct r as [[]| |];
    simpl in H; try discriminate; reflexivity.
Qed.

Lemma CONTAINS_is_IN_exchanged_witness :
  applyContains (Node (SliceStringLiteral ["A"; "B"])) (Node (StringLiteral "A")) init
  = applyIN (Node (StringLiteral "A")) (Node (SliceStringLiteral ["A"; "B"])) init.
Proof.
  apply (CONTAINS_is_IN_exchanged (Node (SliceStringLiteral ["A"; "B"]))
           (Node (StringLiteral "A")) init).
  reflexivity.
Defined.

Lemma prefix_app :
  forall a s, String.prefix a s = true <-> exists post, s = a ++ post.
Proof.
  induction a as [|c a IH]; intros s; simpl.
  - split; [intros _; exists s; reflexivity | intros _; destruct s; reflexivity].
  - destruct s as [|d s]; simpl.
    + split; [discriminate | intros [post H]; discriminate].
    + destruct (Ascii.ascii_dec c d) as [->|Hn].
      * rewrite IH. split; intros [post H]; exists post.
        -- rewrite H. reflexivity.
        -- inversion H. reflexivity.
      * split; [discriminate|]. intros [post H]. inversion H. congruence.
Qed.

Lemma strings_Contains_app :
  forall s a,
    strings_Contains s a = true <-> exists pre post, s = pre ++ a ++ post.
Proof.
  induction s as [|c s IH]; intros a.
  - change (strings_Contains "" a) with (String.prefix a "" || false).
    rewrite orb_false_r, prefix_app. split.
    + intros [post H]. exists "", post. exact H.
    + intros [pre [post H]].
      destruct pre; simpl in H; [exists post; exact H | discriminate].
  - change (strings_Contains (String c s) a)
      with (String.prefix a (String c s) || strings_Contains s a).
    rewrite orb_true_iff, prefix_app, IH. split.
    + intros [[post H]|[pre [post H]]].
      * exists "", post. exact H.
      * exists (String c pre), post. simpl. rewrite H. reflexivity.
    + intros [pre [post H]]. destruct pre as [|d pre]; simpl in H.
      * left. exists post. exact H.
      * right. inversion H. exists pre, post. reflexivity.
Qed.

(** X6: on two strings, [CONTAINS] is true exactly when the right operand
    occurs in the left one, that is when the left operand is the right one
    between two strings. *)
Theorem CONTAINS_substring :
  forall bb a s,
    exists c,
      applyContains (Node (StringLiteral bb)) (Node (StringLiteral a)) s
      = Returns (PNew c, None) s
      /\ (c = true <-> exists pre post, bb = pre ++ a ++ post).
Proof.
  intros bb a s. exists (strings_Contains bb a).
  split; [reflexivity | apply strings_Contains_app].
Qed.

(** ** Logical and ordering operators *)

(** X7: on two booleans, [XOR] and [NEQ] return the same result, and [AND],
    [OR], [XOR] and [NAND] do not depend on the order of their operands. *)
Theorem logical_on_booleans :
  forall l r s a b,
    comparable s l = Some (CBoolean a) ->
    comparable s r = Some (CBoolean b) ->
    applyXOR l r s = applyNQ l r s
    /\ applyAND l r s = applyAND r l s
    /\ applyOR l r s = applyOR r l s
    /\ applyXOR l r s = applyXOR r l s
    /\ applyNAND l r s = applyNAND r l s.
Proof.
  intros l r s a b Hl Hr.
  destruct l as [[]| |]; simpl in Hl; try discriminate;
    destruct r as [[]| |]; simpl in Hr; try discriminate;
    unfold applyXOR, applyNQ, applyAND, applyOR, applyNAND; run;
    repeat match goal with
           | v : bool |- _ => destruct v
           end;
    try destruct (falseExpr_Val s); repeat split.
Qed.

Lemma logical_on_booleans_witness :
  applyXOR (Node (BooleanLiteral true)) FalseExprRef init
  = applyNQ (Node (BooleanLiteral true)) FalseExprRef init
  /\ applyAND (Node (BooleanLiteral true)) FalseExprRef init
     = applyAND FalseExprRef (Node (BooleanLiteral true)) init
  /\ applyOR (Node (BooleanLiteral true)) FalseExprRef init
     = applyOR FalseExprRef (Node (BooleanLiteral true)) init
  /\ applyXOR (Node (BooleanLiteral true)) FalseExprRef init
     = applyXOR FalseExprRef (Node (BooleanLiteral true)) init
  /\ applyNAND (Node (BooleanLiteral true)) FalseExprRef init
     = applyNAND FalseExprRef (Node (BooleanLiteral true)) init.
Proof.
  apply (logical_on_booleans (Node (BooleanLiteral true)) FalseExprRef init true false);
    reflexivity.
Defined.

Lemma SFcompare_antisym :
  forall x y, SFcompare y x = option_map CompOpp (SFcompare x y).
Proof.
  intros x y.
  destruct x as [sx|sx| |sx mx ex]; destruct y as [sy|sy| |sy my ey]; simpl;
    try reflexivity;
    try (destruct sx; reflexivity); try (destruct sy; reflexivity);
    try (destruct sx, sy; reflexivity).
  destruct sx, sy; simpl; try reflexivity;
    rewrite (Z.compare_antisym ex ey);
    destruct (ex ?= ey); simpl; try reflexivity;
    rewrite (Pos.compare_cont_antisym mx my Eq); simpl;
    destruct (Pos.compare_cont Eq mx my); reflexivity.
Qed.

Lemma SFcompare_refl :
  forall x, SFcompare x x = match x with S754_nan => None | _ => Some Eq end.
Proof.
  intros x. destruct x as [sx|sx| |sx mx ex]; simpl; try reflexivity.
  - destruct sx; reflexivity.
  - rewrite Z.compare_refl.
    change (Pos.compare_cont Eq mx mx) with (Pos.compare mx mx).
    rewrite Pos.compare_refl. destruct sx; reflexivity.
Qed.

Lemma SFcompare_nan :
  forall x y,
    SFcompare x y = None <-> x = S754_nan \/ y = S754_nan.
Proof.
  intros x y.
  destruct x as [sx|sx| |sx mx ex]; destruct y as [sy|sy| |sy my ey]; simpl;
    split; intros H; try discriminate; auto;
    destruct H as [H|H]; discriminate.
Qed.

(** X8: on two numbers, [LTE] is [LT] or [EQ] and [GTE] is [GT] or [EQ];
    at most one of [LT], [EQ] and [GT] is true, and none is exactly when an
    operand is a NaN, in which case [NEQ] alone is true. *)
Theorem ordering_on_numbers :
  forall a b s,
    let l := Node (NumberLiteral a) in
    let r := Node (NumberLiteral b) in
    exists lt eq gt,
      applyLT l r s = Returns (PNew lt, None) s
      /\ applyEQ l r s = Returns (PNew eq, None) s
      /\ applyGT l r s = Returns (PNew gt, None) s
      /\ applyLTE l r s = Returns (PNew (lt || eq), None) s
      /\ applyGTE l r s = Returns (PNew (gt || eq), None) s
      /\ applyNQ l r s = Returns (PNew (negb eq), None) s
      /\ lt && eq = false /\ lt && gt = false /\ eq && gt = false
      /\ lt || eq || gt = negb (is_nan a || is_nan b).
Proof.
  intros a b s l r.
  exists (PrimFloat.ltb a b), (PrimFloat.eqb a b), (PrimFloat.ltb b a).
  unfold l, r, applyLT, applyEQ, applyGT, applyLTE, applyGTE, applyNQ,
    float_gt, float_ge, is_nan; simpl; unfold ret.
  rewrite (leb_spec a b), (leb_spec b a), (ltb_spec a b), (ltb_spec b a),
    (eqb_spec a b), (eqb_spec a a), (eqb_spec b b).
  unfold SFleb, SFltb, SFeqb.
  rewrite (SFcompare_antisym (Prim2SF a) (Prim2SF b)), !SFcompare_refl.
  pose proof (SFcompare_nan (Prim2SF a) (Prim2SF b)) as Hn.
  destruct (SFcompare (Prim2SF a) (Prim2SF b)) as [c|]; simpl.
  - assert (Ha : Prim2SF a <> S754_nan)
      by (intro E; destruct Hn as [_ Hn]; discriminate (Hn (or_introl E))).
    assert (Hb : Prim2SF b <> S754_nan)
      by (intro E; destruct Hn as [_ Hn]; discriminate (Hn (or_intror E))).
    destruct (Prim2SF a); try congruence;
      destruct (Prim2SF b); try congruence;
      destruct c; repeat split; reflexivity.
  - destruct Hn as [Hn _].
    destruct (Hn eq_refl) as [E|E]; rewrite E;
      [|destruct (Prim2SF a)]; repeat split; reflexivity.
Qed.

(** ** Shape of the expression *)

(** [Evaluate] is the reduction of the root followed by the test of its
    result, for the nil expression as for the others. *)
Lemma Evaluate_as_reduction :
  forall re now e args s,
    Evaluate re now e args s
    = ('(result, err) <- evaluateSubtree re now e args ;;
       if isErr err then ret (false, err) else
       match result with
       | Node (BooleanLiteral v) => ret (v, None)
       | NilBoolean => v <- load_Val PNil ;; ret (v, None)
       | FalseExprRef => v <- load_Val PFalseExpr ;; ret (v, None)
       | _ =>
           ret (false,
                Some (Errorf "Unexpected result of the root expression: %#v"
                        [AExpr result]))
       end) s.
Proof. intros re now e args s. destruct e; reflexivity. Qed.

Lemma evaluateSubtree_strip_parens :
  forall re now args e s,
    evaluateSubtree re now (strip_parens e) args s = evaluateSubtree re now e args s.
Proof.
  intros re now args.
  induction e as [|op lhs IHl rhs IHr|inner IH|index| | | | | | |];
    intros s; try reflexivity.
  - simpl. unfold bind. rewrite IHl.
    destruct (evaluateSubtree re now lhs args s) as [[lv [el|]] s1|p];
      simpl; try reflexivity.
    rewrite IHr. reflexivity.
  - simpl. apply IH.
Qed.

(** X9: parentheses do not change the evaluation: an expression and the
    expression without its parentheses, at the root or below, evaluate alike,
    to the same boolean, error or crash, in the same state. *)
Theorem parentheses_transparent :
  forall re now e args s,
    Evaluate re now (strip_parens e) args s = Evaluate re now e args s.
Proof.
  intros re now e args s.
  rewrite !Evaluate_as_reduction. unfold bind.
  rewrite evaluateSubtree_strip_parens. reflexivity.
Qed.

Lemma applyOperator_needs_operator :
  forall re now op l r s p s',
    applyOperator re now op l r s = Returns (p, None) s' -> is_operator op = true.
Proof.
  intros re now op l r s p s' H.
  destruct op; try reflexivity; simpl in H; discriminate.
Qed.

Lemma subtree_success_well_formed :
  forall re now args e s v s',
    evaluateSubtree re now e args s = Returns (v, None) s' -> well_formed e = true.
Proof.
  intros re now args.
  induction e as [|op lhs IHl rhs IHr|inner IH|index| | | | | | |];
    intros s v s' H; simpl; try reflexivity.
  - simpl in H. discriminate.
  - simpl in H. unfold bind in H.
    destruct (evaluateSubtree re now lhs args s) as [[lv [el|]] s1|p] eqn:El;
      simpl in H; try discriminate.
    destruct (evaluateSubtree re now rhs args s1) as [[rv [er|]] s2|p] eqn:Er;
      simpl in H; try discriminate.
    destruct (applyOperator re now op lv rv s2) as [[q [eo|]] s3|p] eqn:Eo;
      simpl in H; try discriminate.
    rewrite (applyOperator_needs_operator _ _ _ _ _ _ _ _ Eo),
      (IHl _ _ _ El), (IHr _ _ _ Er).
    reflexivity.
  - simpl in H. exact (IH _ _ _ H).
Qed.

(** X10: an evaluation that returns a nil error has met no nil operand and
    no binary node whose token is not an operator: an expression that is not
    well formed never evaluates to a result. *)
Theorem success_needs_well_formed :
  forall re now e args s,
    succeeds (Evaluate re now e args s) = true -> well_formed e = true.
Proof.
  intros re now e args s H.
  rewrite Evaluate_as_reduction in H. unfold bind in H.
  destruct (evaluateSubtree re now e args s) as [[v [err|]] s1|p] eqn:E;
    simpl in H; try discriminate.
  exact (subtree_success_well_formed _ _ _ _ _ _ _ E).
Qed.

Lemma success_needs_well_formed_witness :
  well_formed scenario_expr = true.
Proof.
  apply (success_needs_well_formed literal_MatchString (ticking 0 0) scenario_expr
           (people "test" 180 false) init).
  reflexivity.
Defined.

(** ** Variables *)




Lemma subtree_struct_as_map :
  forall re now fields e s,
    resolves_in fields e = true ->
    evaluateSubtree re now e (GoStruct fields) s
    = evaluateSubtree re now e (GoMap fields) s.
Proof.
  intros re now fields.
  induction e as [|op lhs IHl rhs IHr|inner IH|index| | | | | | |];
    intros s H; simpl in H; try reflexivity.
  - apply andb_true_iff in H. destruct H as [Hl Hr].
    simpl. unfold bind. rewrite (IHl s Hl).
    destruct (evaluateSubtree re now lhs (GoMap fields) s) as [[lv [el|]] s1|p];
      simpl; try reflexivity.
    rewrite (IHr s1 Hr). reflexivity.
  - simpl. exact (IH s H).
  - apply andb_true_iff in H. destruct H as [Hx Hf].
    simpl. unfold bind, lookupArg. simpl.
    destruct (map_lookup index fields); [|discriminate].
    rewrite Hx. reflexivity.
Qed.

(** X12: a struct and the map of its fields are interchangeable records: an
    expression whose variables all name exported fields of the struct
    evaluates against the struct as against the map that binds the field
    names to the field values. *)
Theorem struct_as_map :
  forall re now fields e s,
    resolves_in fields e = true ->
    Evaluate re now e (GoStruct fields) s = Evaluate re now e (GoMap fields) s.
Proof.
  intros re now fields e s H.
  rewrite !Evaluate_as_reduction. unfold bind.
  rewrite (subtree_struct_as_map re now fields e s H). reflexivity.
Qed.

Lemma struct_as_map_witness :
  Evaluate literal_MatchString (ticking 0 0) scenario_expr (people "test" 180 false) init
  = Evaluate literal_MatchString (ticking 0 0) scenario_expr
      (GoMap [binding "Name" (GoString "test"); binding "Height" (GoInt32 180);
              binding "Male" (GoBool false)]) init.
Proof.
  apply (struct_as_map literal_MatchString (ticking 0 0)
           [binding "Name" (GoString "test"); binding "Height" (GoInt32 180);
            binding "Male" (GoBool false)] scenario_expr init).
  reflexivity.
Defined.

(** ** Results of binary expressions *)

(** No operator returns a nil pointer with a nil error. *)
Lemma applyOperator_result :
  forall re now op l r s s',
    applyOperator re now op l r s <> Returns (PNil, None) s'.
Proof.
  intros re now op l r s s' H.
  destruct op; simpl in H; try discriminate;
    destruct l as [[]| |]; destruct r as [[]| |];
    unfold applyNEREG, applyNOTIN, applyBefore, time_Since in H;
    unfold applyEREG in H; run;
    try match type of H with
        | context [re ?b ?a] => destruct (re b a) as [m [x|]]
        | context [if ?c then _ else _] => destruct c
        end;
    discriminate.
Qed.

(** X13: a binary expression that reduces without an error reduces to a
    boolean, so that [Evaluate] returns it: the error "Unexpected result of
    the root expression" is never about the result of an operator. *)
Theorem binary_root_is_boolean :
  forall re now op lhs rhs args s v s',
    evaluateSubtree re now (BinaryExpr op lhs rhs) args s = Returns (v, None) s' ->
    exists b,
      comparable s' v = Some (CBoolean b)
      /\ Evaluate re now (BinaryExpr op lhs rhs) args s = Returns (b, None) s'.
Proof.
  intros re now op lhs rhs args s v s' H.
  rewrite Evaluate_as_reduction. unfold bind. rewrite H. simpl.
  simpl in H. unfold bind in H.
  destruct (evaluateSubtree re now lhs args s) as [[lv [el|]] s1|p];
    simpl in H; try discriminate.
  destruct (evaluateSubtree re now rhs args s1) as [[rv [er|]] s2|p];
    simpl in H; try discriminate.
  destruct (applyOperator re now op lv rv s2) as [[q eo] s3|p] eqn:Eo;
    simpl in H; try discriminate.
  unfold ret in H. inversion H; subst.
  destruct q as [| |b]; simpl.
  - exfalso. exact (applyOperator_result re now op lv rv s2 s' Eo).
  - exists (falseExpr_Val s'). split; reflexivity.
  - exists b. split; reflexivity.
Qed.

Lemma binary_root_is_boolean_witness :
  exists b,
    comparable init (Node (BooleanLiteral true)) = Some (CBoolean b)
    /\ Evaluate literal_MatchString (ticking 0 0)
         (BinaryExpr GT (NumberLiteral 2) (NumberLiteral 1)) GoNil init
       = Returns (b, None) init.
Proof.
  apply (binary_root_is_boolean literal_MatchString (ticking 0 0) GT
           (NumberLiteral 2) (NumberLiteral 1) GoNil init
           (Node (BooleanLiteral true)) init).
  reflexivity.
Defined.

(** ** [BEFORE] and the clock *)

Lemma time_Sub_monotone :
  forall t t' u, t <= t' -> time_Sub t u <= time_Sub t' u.
Proof.
  intros t t' u H. unfold time_Sub.
  destruct (Z.gtb_spec (t - u) maxInt64); destruct (Z.gtb_spec (t' - u) maxInt64);
    destruct (Z.ltb_spec (t - u) minInt64); destruct (Z.ltb_spec (t' - u) minInt64);
    unfold minInt64, maxInt64 in *; lia.
Qed.

(** X14: once [BEFORE] is true of two operands it stays true: whatever the
    day count, an application of [BEFORE] at a later reading of the clock
    returns true as well. *)
Theorem BEFORE_stays_true :
  forall now now' l r s s1 s',
    now (clock_reads s) <= now' (clock_reads s') ->
    applyBefore now l r s = Returns (PNew true, None) s1 ->
    applyBefore now' l r s'
    = Returns (PNew true, None) (mkState (falseExpr_Val s') (S (clock_reads s'))).
Proof.
  intros now now' l r s s1 s' Hle H.
  unfold applyBefore, time_Since in *.
  destruct l as [[]| |]; try discriminate;
    destruct r as [[]| |]; try discriminate; run.
  match type of H with
  | context [if ?c then _ else _] => destruct c eqn:E
  end; [|discriminate].
  apply Z.gtb_gt in E.
  pose proof (time_Sub_monotone _ _ Val Hle) as Hm.
  match goal with
  | |- context [if ?c then _ else _] => destruct c eqn:E'
  end; [reflexivity|].
  rewrite Z.gtb_ltb in E'. apply Z.ltb_ge in E'. lia.
Qed.

Lemma BEFORE_stays_true_witness :
  applyBefore (ticking (3 * day) 0) (Node (TimeLiteral 0)) (Node (NumberLiteral 1)) init
  = Returns (PNew true, None) (mkState false 1).
Proof.
  apply (BEFORE_stays_true (ticking (2 * day) 0) (ticking (3 * day) 0)
           (Node (TimeLiteral 0)) (Node (NumberLiteral 1)) init (mkState false 1) init).
  - vm_compute. discriminate.
  - vm_compute. reflexivity.
Defined.

Lemma applyOperator_reads :
  forall re now op l r s x s',
    applyOperator re now op l r s = Returns x s' ->
    (clock_reads s <= clock_reads s'
     <= clock_reads s + (if Token_eqb BEFORE op then 1 else 0))%nat.
Proof.
  intros re now op l r s x s' H.
  destruct (Token_eqb BEFORE op) eqn:Eop.
  - destruct op; try discriminate. simpl in H.
    unfold applyBefore, time_Since in H.
    destruct l as [[]| |]; destruct r as [[]| |]; run;
      try match type of H with
          | context [if ?c then _ else _] => destruct c
          end;
      inversion H; simpl; lia.
  - assert (Hop : op <> BEFORE) by (intro; subst op; discriminate).
    pose proof (agree_applyOperator re now now op l r Hop s s eq_refl) as Ha.
    rewrite H in Ha. destruct Ha as [-> _]. lia.
Qed.

Lemma evaluateSubtree_reads :
  forall re now args e s x s',
    evaluateSubtree re now e args s = Returns x s' ->
    (clock_reads s <= clock_reads s' <= clock_reads s + count_BEFORE e)%nat.
Proof.
  intros re now args.
  induction e as [|op lhs IHl rhs IHr|inner IH|index| | | | | | |];
    intros s x s' H; simpl in H;
    try (unfold ret in H; inversion H; subst; simpl; lia).
  - unfold bind in H.
    destruct (evaluateSubtree re now lhs args s) as [[lv [el|]] s1|p] eqn:El;
      simpl in H; try discriminate;
      pose proof (IHl _ _ _ El) as Hl.
    { unfold ret in H. inversion H; subst. simpl. lia. }
    destruct (evaluateSubtree re now rhs args s1) as [[rv [er|]] s2|p] eqn:Er;
      simpl in H; try discriminate;
      pose proof (IHr _ _ _ Er) as Hr.
    { unfold ret in H. inversion H; subst. simpl. lia. }
    destruct (applyOperator re now op lv rv s2) as [[q eo] s3|p] eqn:Eo;
      simpl in H; try discriminate.
    pose proof (applyOperator_reads _ _ _ _ _ _ _ _ Eo) as Ho.
    unfold ret in H. inversion H; subst. cbn [count_BEFORE]. lia.
  - simpl. exact (IH _ _ _ H).
  - unfold bind in H.
    pose proof (agree_lookupArg index args s s eq_refl) as Ha.
    destruct (lookupArg index args s) as [[val|err] s1|p]; try discriminate;
      destruct Ha as [-> _].
    + pose proof (agree_literalOf index val s s eq_refl) as Hb.
      rewrite H in Hb. destruct Hb as [-> _]. simpl. lia.
    + unfold ret in H. inversion H; subst. simpl. lia.
Qed.

(** X15: an evaluation reads the clock at most once for each [BEFORE] of the
    expression, and touches nothing else: it returns in a state that differs
    from the one it started in by that number of readings only. *)
Theorem clock_reads_bounded :
  forall re now e args s x s',
    Evaluate re now e args s = Returns x s' ->
    falseExpr_Val s' = falseExpr_Val s
    /\ (clock_reads s <= clock_reads s' <= clock_reads s + count_BEFORE e)%nat.
Proof.
  intros re now e args s x s' H. split.
  - exact (preserves_Evaluate re now args e s x s' H).
  - rewrite Evaluate_as_reduction in H. unfold bind in H.
    destruct (evaluateSubtree re now e args s) as [[v [err|]] s1|p] eqn:E;
      simpl in H; try discriminate;
      pose proof (evaluateSubtree_reads _ _ _ _ _ _ _ E) as Hr.
    + unfold ret in H. inversion H; subst. exact Hr.
    + destruct v as [[]| |]; run; inversion H; subst; exact Hr.
Qed.

Lemma clock_reads_bounded_witness :
  falseExpr_Val (mkState false 1) = falseExpr_Val init
  /\ (clock_reads init <= clock_reads (mkState false 1)
      <= clock_reads init
         + count_BEFORE (BinaryExpr BEFORE (VarRef "Birth") (NumberLiteral 1)))%nat.
Proof.
  apply (clock_reads_bounded literal_MatchString (ticking (2 * day) 0)
           (BinaryExpr BEFORE (VarRef "Birth") (NumberLiteral 1))
           (GoStruct [binding "Birth" (GoTime 0)]) init (true, None) (mkState false 1)).
  vm_compute. reflexivity.
Defined.

(** ** Regular expressions *)

(** X16: [EREG] and [NEREG] match the left operand against the right
    operand as the pattern.  When both operands reduce to strings, [EREG]
    evaluates to the answer of the matcher and [NEREG] to its negation; when
    the matcher reports an error, [Evaluate] returns false and that error for
    the one as for the other. *)
Theorem EREG_matches :
  forall re now lhs rhs args s a s1 b s2,
    evaluateSubtree re now lhs args s = Returns (Node (StringLiteral a), None) s1 ->
    evaluateSubtree re now rhs args s1 = Returns (Node (StringLiteral b), None) s2 ->
    Evaluate re now (BinaryExpr EREG lhs rhs) args s
    = Returns (match re b a with
               | (m, None) => (m, None)
               | (_, Some e) => (false, Some e)
               end) s2
    /\ Evaluate re now (BinaryExpr NEREG lhs rhs) args s
       = Returns (match re b a with
                  | (m, None) => (negb m, None)
                  | (_, Some e) => (false, Some e)
                  end) s2.
Proof.
  intros re now lhs rhs args s a s1 b s2 Hl Hr.
  unfold Evaluate, applyOperator; simpl; unfold bind.
  rewrite Hl; simpl. rewrite Hr; simpl.
  unfold applyNEREG, applyEREG, bind; simpl.
  destruct (re b a) as [m [e|]]; split; reflexivity.
Qed.

Lemma EREG_matches_witness :
  Evaluate literal_MatchString (ticking 0 0)
    (BinaryExpr EREG (VarRef "Name") (StringLiteral "es")) (people "test" 180 false) init
  = Returns (true, None) init
  /\ Evaluate literal_MatchString (ticking 0 0)
       (BinaryExpr NEREG (VarRef "Name") (StringLiteral "es")) (people "test" 180 false) init
     = Returns (false, None) init.
Proof.
  apply (EREG_matches literal_MatchString (ticking 0 0) (VarRef "Name")
           (StringLiteral "es") (people "test" 180 false) init "test" init "es" init);
    reflexivity.
Defined.

(** ** Composition of conditions *)

(** A successful evaluation is a reduction to a boolean. *)
Lemma Evaluate_success :
  forall re now e args s a s1,
    Evaluate re now e args s = Returns (a, None) s1 ->
    exists v,
      evaluateSubtree re now e args s = Returns (v, None) s1
      /\ (v = Node (BooleanLiteral a) \/ v = FalseExprRef /\ falseExpr_Val s1 = a).
Proof.
  intros re now e args s a s1 H.
  rewrite Evaluate_as_reduction in H. unfold bind in H.
  destruct (evaluateSubtree re now e args s) as [[v [err|]] s0|p];
    simpl in H; try discriminate.
  destruct v as [[]| |]; run; inversion H; subst; eauto.
Qed.

(** X17: the logical operators combine conditions.  When a condition
    evaluates to [a] and a second one, evaluated next, to [b], their
    conjunction evaluates to [a && b], their disjunction to [a || b], [XOR]
    to their difference and [NAND] to the negation of the conjunction, in the
    state the second evaluation leaves. *)
Theorem logical_composition :
  forall re now lhs rhs args s a s1 b s2,
    Evaluate re now lhs args s = Returns (a, None) s1 ->
    Evaluate re now rhs args s1 = Returns (b, None) s2 ->
    Evaluate re now (BinaryExpr AND lhs rhs) args s = Returns (a && b, None) s2
    /\ Evaluate re now (BinaryExpr OR lhs rhs) args s = Returns (a || b, None) s2
    /\ Evaluate re now (BinaryExpr XOR lhs rhs) args s = Returns (xorb a b, None) s2
    /\ Evaluate re now (BinaryExpr NAND lhs rhs) args s
       = Returns (negb (a && b), None) s2.
Proof.
  intros re now lhs rhs args s a s1 b s2 Hl Hr.
  destruct (Evaluate_success _ _ _ _ _ _ _ Hl) as (lv & El & Vl).
  destruct (Evaluate_success _ _ _ _ _ _ _ Hr) as (rv & Er & Vr).
  pose proof (preserves_evaluateSubtree re now args rhs s1 _ s2 Er) as Hp.
  unfold Evaluate, applyOperator; simpl; unfold bind.
  rewrite El; simpl. rewrite Er; simpl.
  unfold applyAND, applyOR, applyXOR, applyNAND.
  destruct Vl as [-> | [-> Ha]]; destruct Vr as [-> | [-> Hb]]; run;
    subst; rewrite ?Hp;
    try destruct (falseExpr_Val s1);
    repeat match goal with
           | v : bool |- _ => destruct v
           end;
    repeat split.
Qed.

Lemma logical_composition_witness :
  Evaluate literal_MatchString (ticking 0 0)
    (BinaryExpr AND (BinaryExpr GT (VarRef "Height") (NumberLiteral 100))
                    (BinaryExpr EQ (VarRef "Male") (BooleanLiteral false)))
    (people "test" 180 false) init
  = Returns (true && true, None) init.
Proof.
  apply (logical_composition literal_MatchString (ticking 0 0)
           (BinaryExpr GT (VarRef "Height") (NumberLiteral 100))
           (BinaryExpr EQ (VarRef "Male") (BooleanLiteral false))
           (people "test" 180 false) init true init true init);
    reflexivity.
Defined.

(** ** What of the record an evaluation depends on *)

Lemma map_lookup_filter :
  forall (P : string -> bool) x m,
    P x = true ->
    map_lookup x (filter (fun b => match b with binding name _ => P name end) m)
    = map_lookup x m.
Proof.
  intros P x m Hx. induction m as [|[name v] m IH]; simpl; [reflexivity|].
  destruct (String.eqb_spec name x) as [->|Hn].
  - rewrite Hx. simpl. rewrite String.eqb_refl. reflexivity.
  - destruct (P name); simpl; [|exact IH].
    destruct (String.eqb_spec name x); [contradiction | exact IH].
Qed.

Lemma subtree_filter :
  forall re now (P : string -> bool) m e s,
    (forall x, mentions x e = true -> P x = true) ->
    evaluateSubtree re now e
      (GoMap (filter (fun b => match b with binding name _ => P name end) m)) s
    = evaluateSubtree re now e (GoMap m) s.
Proof.
  intros re now P m.
  induction e as [|op lhs IHl rhs IHr|inner IH|index| | | | | | |];
    intros s H; try reflexivity.
  - simpl. unfold bind.
    rewrite IHl by (intros x Hx; apply H; simpl; rewrite Hx; reflexivity).
    destruct (evaluateSubtree re now lhs (GoMap m) s) as [[lv [el|]] s1|p];
      simpl; try reflexivity.
    rewrite IHr by (intros x Hx; apply H; simpl; rewrite Hx; apply orb_true_r).
    reflexivity.
  - simpl. apply IH. exact H.
  - simpl. unfold bind, lookupArg. simpl.
    rewrite map_lookup_filter by (apply H; simpl; apply String.eqb_refl).
    reflexivity.
Qed.

(** X18: against a map, an evaluation depends only on the bindings of the
    variables that occur in the expression: the map and the map without its
    other keys give the same boolean, error or crash. *)
Theorem other_keys_ignored :
  forall re now e m s,
    Evaluate re now e
      (GoMap (filter (fun b => match b with binding name _ => mentions name e end) m)) s
    = Evaluate re now e (GoMap m) s.
Proof.
  intros re now e m s.
  rewrite !Evaluate_as_reduction. unfold bind.
  rewrite (subtree_filter re now (fun x => mentions x e) m e s) by auto.
  reflexivity.
Qed.

Lemma subtree_without_variables :
  forall re now args args' e s,
    mentions_VarRef e = false ->
    evaluateSubtree re now e args s = evaluateSubtree re now e args' s.
Proof.
  intros re now args args'.
  induction e as [|op lhs IHl rhs IHr|inner IH|index| | | | | | |];
    intros s H; simpl in H; try reflexivity; try discriminate.
  - apply orb_false_iff in H. destruct H as [Hl Hr].
    simpl. unfold bind. rewrite (IHl s Hl).
    destruct (evaluateSubtree re now lhs args' s) as [[lv [el|]] s1|p];
      simpl; try reflexivity.
    rewrite (IHr s1 Hr). reflexivity.
  - simpl. exact (IH s H).
Qed.

(** X19: an expression without variables never looks at the record: it
    evaluates alike against any two records, a nil record or one that is
    neither a map nor a struct included. *)
Theorem record_unused_without_variables :
  forall re now e args args' s,
    mentions_VarRef e = false ->
    Evaluate re now e args s = Evaluate re now e args' s.
Proof.
  intros re now e args args' s H.
  rewrite !Evaluate_as_reduction. unfold bind.
  rewrite (subtree_without_variables re now args args' e s H). reflexivity.
Qed.

Lemma record_unused_without_variables_witness :
  Evaluate literal_MatchString (ticking 0 0)
    (BinaryExpr GT (NumberLiteral 2) (NumberLiteral 1)) GoNil init
  = Evaluate literal_MatchString (ticking 0 0)
      (BinaryExpr GT (NumberLiteral 2) (NumberLiteral 1)) (GoString "") init.
Proof.
  apply (record_unused_without_variables literal_MatchString (ticking 0 0)
           (BinaryExpr GT (NumberLiteral 2) (NumberLiteral 1)) GoNil (GoString "") init).
  reflexivity.
Defined.
